(** * Resume document generation engine: fallback synthesis and rendering

    A shallow embedding of [finalproject.py]: the text synthesizer
    ([generate_resume_text], [build_prompt_for_openai],
    [build_fallback_resume_text]) and the document renderer
    ([create_pdf_bytes]).

    Conventions of the embedding.
    - A Python [str] is a Rocq [string]; each [ascii] stands for one code
      point in U+0000..U+00FF.  On that range [str.lower], [str.strip],
      [str.splitlines] and [str.split] are defined below exactly as CPython
      computes them.  [str.upper] leaves the range for three characters, so
      it produces a list of code points.
    - The [data] dictionary is a [gmap string pyval]; a value is [None], a
      [str] or a list of [str].
    - A Python exception is the [Raise] branch of [result]. *)

From Stdlib Require Import NArith ZArith QArith Ascii String List Bool Lia.
From stdpp Require Import base gmap strings list fin_maps.

Local Open Scope N_scope.

(** ** Python string primitives *)

Module PyStr.

Definition ord (c : ascii) : N := N_of_ascii c.
Definition chr (n : N) : ascii := ascii_of_N n.

Definition LF : string := String (chr 10) EmptyString.

Definition between (lo hi n : N) : bool := (lo <=? n) && (n <=? hi).

(** [Py_UNICODE_ISSPACE] below U+0100: TAB..CR, FS..US, SPACE, NEL, NBSP. *)
Definition isspace (c : ascii) : bool :=
  let n := ord c in
  between 9 13 n || between 28 32 n || (n =? 133) || (n =? 160).

(** [Py_UNICODE_ISLINEBREAK] below U+0100: LF, VT, FF, CR, FS, GS, RS, NEL. *)
Definition is_linebreak (c : ascii) : bool :=
  let n := ord c in
  between 10 13 n || between 28 30 n || (n =? 133).

Definition is_empty (s : string) : bool :=
  match s with EmptyString => true | String _ _ => false end.

Fixpoint lstrip (s : string) : string :=
  match s with
  | EmptyString => EmptyString
  | String c s' => if isspace c then lstrip s' else s
  end.

Fixpoint rstrip (s : string) : string :=
  match s with
  | EmptyString => EmptyString
  | String c s' =>
      let r := rstrip s' in
      if is_empty r && isspace c then EmptyString else String c r
  end.

(** [s.strip()] *)
Definition strip (s : string) : string := rstrip (lstrip s).

(** [s.splitlines()]: [line] is the text of the current line read so far. *)
Fixpoint splitlines_from (line s : string) : list string :=
  match s with
  | EmptyString => if is_empty line then [] else [line]
  | String c s' =>
      if is_linebreak c then
        match s' with
        | String c' s'' =>
            if (ord c =? 13) && (ord c' =? 10)
            then line :: splitlines_from EmptyString s''
            else line :: splitlines_from EmptyString s'
        | EmptyString => line :: splitlines_from EmptyString s'
        end
      else splitlines_from (line +:+ String c EmptyString) s'
  end.

Definition splitlines (s : string) : list string :=
  splitlines_from EmptyString s.

(** [s.split(sep)] for a one-character separator. *)
Fixpoint split_from (sep : ascii) (field s : string) : list string :=
  match s with
  | EmptyString => [field]
  | String c s' =>
      if Ascii.eqb c sep then field :: split_from sep EmptyString s'
      else split_from sep (field +:+ String c EmptyString) s'
  end.

Definition split (sep : ascii) (s : string) : list string :=
  split_from sep EmptyString s.

(** [sep.join(l)] *)
Fixpoint join (sep : string) (l : list string) : string :=
  match l with
  | [] => EmptyString
  | [x] => x
  | x :: l' => x +:+ sep +:+ join sep l'
  end.

(** [s.lower()]: A..Z and U+00C0..U+00DE (but not the multiplication sign)
    move up by 32; nothing else below U+0100 has a lower-case mapping. *)
Definition lower_char (c : ascii) : ascii :=
  let n := ord c in
  if between 65 90 n || (between 192 222 n && negb (n =? 215))
  then chr (n + 32) else c.

Fixpoint lower (s : string) : string :=
  match s with
  | EmptyString => EmptyString
  | String c s' => String (lower_char c) (lower s')
  end.

(** [s.upper()], as code points: a..z and U+00E0..U+00FE (but not the
    division sign) move down by 32; sharp s becomes SS, y-diaeresis becomes
    U+0178 and the micro sign becomes U+039C. *)
Definition upper_char (c : ascii) : list N :=
  let n := ord c in
  if between 97 122 n || (between 224 254 n && negb (n =? 247)) then [n - 32]
  else if n =? 223 then [83; 83]
  else if n =? 255 then [376]
  else if n =? 181 then [924]
  else [n].

Fixpoint upper (s : string) : list N :=
  match s with
  | EmptyString => []
  | String c s' => upper_char c ++ upper s'
  end.

(** The code points of a string. *)
Fixpoint codepoints (s : string) : list N :=
  match s with
  | EmptyString => []
  | String c s' => ord c :: codepoints s'
  end.

(** Iterating over a [str] yields its one-character strings. *)
Fixpoint chars (s : string) : list string :=
  match s with
  | EmptyString => []
  | String c s' => String c EmptyString :: chars s'
  end.

Fixpoint contains (c : ascii) (s : string) : bool :=
  match s with
  | EmptyString => false
  | String c' s' => Ascii.eqb c c' || contains c s'
  end.

(** [repr(s)] *)
Definition hex_digit (n : N) : ascii :=
  if n <? 10 then chr (48 + n) else chr (87 + n).

Definition isprintable (c : ascii) : bool :=
  let n := ord c in
  between 32 126 n || (between 161 255 n && negb (n =? 173)).

Definition squote : ascii := chr 39.
Definition dquote : ascii := chr 34.
Definition backslash : ascii := chr 92.

Definition repr_char (quote c : ascii) : string :=
  let n := ord c in
  if Ascii.eqb c quote || Ascii.eqb c backslash
  then String backslash (String c EmptyString)
  else if n =? 9 then String backslash "t"
  else if n =? 10 then String backslash "n"
  else if n =? 13 then String backslash "r"
  else if isprintable c then String c EmptyString
  else String backslash
         (String "x" (String (hex_digit (n / 16))
                        (String (hex_digit (n mod 16)) EmptyString))).

Fixpoint repr_body (quote : ascii) (s : string) : string :=
  match s with
  | EmptyString => EmptyString
  | String c s' => repr_char quote c +:+ repr_body quote s'
  end.

Definition repr (s : string) : string :=
  let quote :=
    if contains squote s && negb (contains dquote s) then dquote else squote in
  String quote (repr_body quote s +:+ String quote EmptyString).

End PyStr.

Import PyStr.

(** ** Python values, truthiness and exceptions *)

Inductive pyval :=
| VNone
| VStr (s : string)
| VList (l : list string).

Inductive exn :=
| AttributeError
| TypeError
| KeyError (k : string)
| IndexError
| UnicodeEncodeError
| FPDFUnicodeEncodingException
| LibraryError (msg : string).

Inductive result (A : Type) :=
| Ok (a : A)
| Raise (e : exn).

Arguments Ok {A} a.
Arguments Raise {A} e.

#[global] Instance result_ret : MRet result := fun A a => Ok a.

#[global] Instance result_bind : MBind result := fun A B k r =>
  match r with
  | Ok a => k a
  | Raise e => Raise e
  end.

Definition is_ok {A} (r : result A) : bool :=
  match r with Ok _ => true | Raise _ => false end.

(** [bool(v)] *)
Definition truthy (v : pyval) : bool :=
  match v with
  | VNone => false
  | VStr s => negb (is_empty s)
  | VList l => match l with [] => false | _ :: _ => true end
  end.

(** [data.get(k)] and [data.get(k, d)] *)
Definition get (data : gmap string pyval) (k : string) : pyval :=
  default VNone (data !! k).

Definition get_or (data : gmap string pyval) (k : string) (d : pyval) : pyval :=
  default d (data !! k).

(** [str(v)], which is what an f-string field [{v}] inserts. *)
Definition py_str (v : pyval) : string :=
  match v with
  | VNone => "None"
  | VStr s => s
  | VList l => "[" +:+ join ", " (map repr l) +:+ "]"
  end.

(** Method calls that exist on [str] only. *)
Definition py_lower (v : pyval) : result string :=
  match v with VStr s => Ok (lower s) | _ => Raise AttributeError end.

Definition py_splitlines (v : pyval) : result (list string) :=
  match v with VStr s => Ok (splitlines s) | _ => Raise AttributeError end.

Definition py_split (v : pyval) (sep : ascii) : result (list string) :=
  match v with VStr s => Ok (split sep s) | _ => Raise AttributeError end.

(** [v + t] and [t + v] for a [str] [t]; [v] is known not to be [None]. *)
Definition py_add_str (v : pyval) (t : string) : result string :=
  match v with VStr s => Ok (s +:+ t) | _ => Raise TypeError end.

Definition py_str_add (t : string) (v : pyval) : result string :=
  match v with VStr s => Ok (t +:+ s) | _ => Raise TypeError end.

(** The items a [for] loop or [join] draws from a value that is not [None]. *)
Definition py_iter (v : pyval) : list string :=
  match v with
  | VNone => []
  | VStr s => chars s
  | VList l => l
  end.

(** [[l.strip() for l in ls if l.strip()]] *)
Definition stripped_nonempty (ls : list string) : list string :=
  map strip (filter (fun l => negb (is_empty (strip l))) ls).

(** [if not l: l = d], as the value [l] has afterwards. *)
Definition if_empty (l d : list string) : list string :=
  match l with
  | [] => d
  | _ :: _ => l
  end.

(** ** TextSynthesizer: the deterministic fallback *)

Definition closing_clause : string :=
  "Known for strong work ethic, safety-first approach, and consistent on-time completion of projects.".

Definition generic_experience (trade_lower : string) : list string :=
  [ "Performed " +:+ trade_lower +:+ " tasks including installation, maintenance, and repairs.";
    "Followed safety protocols and maintained jobsite cleanliness.";
    "Collaborated with teams to complete projects on schedule." ].

Definition generic_skills (trade : string) : list string :=
  [ trade +:+ " installation"; "Equipment maintenance"; "Safety compliance" ].

Definition bullet (e : string) : string := "- " +:+ e.

(** The local variables of [build_fallback_resume_text] at its [return]. *)
Record locals := {
  summary : string;
  exp_lines : list string;
  skills : list string;
  certs_text : string;
  parts : list string
}.

Definition fallback_locals (data : gmap string pyval) : result locals :=
  let name := get_or data "name" (VStr "") in
  let trade := get_or data "trade" (VStr "") in
  let years := get_or data "years_experience" (VStr "") in
  trade_lower ← py_lower trade;
  let summary :=
    "Reliable " +:+ py_str trade +:+ " with " +:+ py_str years
      +:+ " years of experience in " +:+ trade_lower +:+ " work. " in
  summary ←
    (if truthy (get data "special_notes")
     then notes ← py_add_str (get data "special_notes") " ";
          Ok (summary +:+ notes)
     else Ok summary);
  let summary := summary +:+ closing_clause in
  lines ← py_splitlines (get_or data "experience_text" (VStr ""));
  let exp_lines := stripped_nonempty lines in
  let exp_lines := if_empty exp_lines (generic_experience trade_lower) in
  skills ←
    (if truthy (get data "skills_list")
     then Ok (py_iter (get data "skills_list"))
     else
       let text :=
         if truthy (get data "skills_text")
         then get data "skills_text" else VStr "" in
       fields ← py_split text ",";
       Ok (stripped_nonempty fields));
  let skills := if_empty skills (generic_skills (py_str trade)) in
  let certs :=
    if truthy (get data "certifications")
    then get data "certifications" else VList [] in
  let certs_text :=
    if truthy certs then join ", " (py_iter certs) else "N/A" in
  let parts :=
    [ "PROFESSIONAL SUMMARY" +:+ LF +:+ summary +:+ LF;
      "EXPERIENCE" +:+ LF +:+ join LF (map bullet exp_lines);
      LF +:+ "SKILLS" +:+ LF +:+ join LF (map bullet skills);
      LF +:+ "CERTIFICATIONS" +:+ LF +:+ certs_text ] in
  parts ←
    (if truthy (get data "education")
     then edu ← py_str_add (LF +:+ "EDUCATION" +:+ LF) (get data "education");
          Ok (parts ++ [edu])
     else Ok parts);
  Ok {| summary := summary; exp_lines := exp_lines; skills := skills;
        certs_text := certs_text; parts := parts |}.

Definition build_fallback_resume_text (data : gmap string pyval)
  : result string :=
  l ← fallback_locals data;
  Ok (join LF (parts l)).

(** ** TextSynthesizer: the remote path *)

(** The value [openai.ChatCompletion.create] hands back. *)
#[warnings="-register-all"]
Inductive json :=
| JNull
| JNum (n : Z)
| JStr (s : string)
| JList (l : list json)
| JDict (l : list (string * json)).

Fixpoint assoc (k : string) (l : list (string * json)) : option json :=
  match l with
  | [] => None
  | (k', v) :: l' => if String.eqb k k' then Some v else assoc k l'
  end.

(** [v[k]] for a string key, [v[0]], and [v.strip()] *)
Definition getitem (v : json) (k : string) : result json :=
  match v with
  | JDict l => match assoc k l with Some x => Ok x | None => Raise (KeyError k) end
  | _ => Raise TypeError
  end.

Definition getitem0 (v : json) : result json :=
  match v with
  | JList l => match l with x :: _ => Ok x | [] => Raise IndexError end
  | JStr s => match s with
              | String c _ => Ok (JStr (String c EmptyString))
              | EmptyString => Raise IndexError
              end
  | JDict _ => Raise (KeyError "0")
  | _ => Raise TypeError
  end.

Definition json_strip (v : json) : result string :=
  match v with JStr s => Ok (strip s) | _ => Raise AttributeError end.

Record request := {
  model : string;
  messages : list (string * string);
  temperature : N * N;
  max_tokens : N
}.

Inductive outcome :=
| Returns (resp : json)
| Throws (e : exn).

(** What the synthesizer finds around it: whether [import openai] worked,
    [os.getenv("OPENAI_API_KEY")], [json.dumps(data, indent=2)] (which
    depends on the insertion order of the dictionary, not kept by the map)
    and the answer of the remote service. *)
Record Remote := {
  OPENAI_AVAILABLE : bool;
  OPENAI_API_KEY : option string;
  json_dumps : gmap string pyval -> string;
  ChatCompletion_create : request -> outcome
}.

Inductive event :=
| SetApiKey (k : string)
| RemoteCall (r : request)
| Warning (e : exn).

Definition build_prompt_for_openai (w : Remote) (data : gmap string pyval)
  : string :=
  "You are a helpful assistant that writes concise, professional resume content "
  +:+ "for blue-collar professionals. Produce:" +:+ LF
  +:+ "1) Professional Summary" +:+ LF
  +:+ "2) Experience" +:+ LF
  +:+ "3) Skills and Certifications" +:+ LF
  +:+ "4) Education" +:+ LF +:+ LF
  +:+ "User data (JSON):" +:+ LF +:+ json_dumps w data.

(** [resp["choices"][0]["message"]["content"].strip()] *)
Definition response_content (resp : json) : result string :=
  choices ← getitem resp "choices";
  first ← getitem0 choices;
  message ← getitem first "message";
  content ← getitem message "content";
  json_strip content.

Definition remote_attempt (w : Remote) (r : request) : result string :=
  match ChatCompletion_create w r with
  | Returns resp => response_content resp
  | Throws e => Raise e
  end.

(** The arguments of [openai.ChatCompletion.create]; the temperature 0.2 is
    kept as the fraction 2/10. *)
Definition chat_request (prompt : string) : request :=
  {| model := "gpt-4o-mini"; messages := [("user", prompt)];
     temperature := (2, 10); max_tokens := 700 |}.

(** Truthiness of [os.getenv(...)]: unset and empty both count as absent. *)
Definition env_truthy (v : option string) : bool :=
  match v with Some s => negb (is_empty s) | None => false end.

(** The result paired with the calls and warnings issued, in order. *)
Definition generate_resume_text (w : Remote) (data : gmap string pyval)
  : result string * list event :=
  let api_key := OPENAI_API_KEY w in
  if OPENAI_AVAILABLE w && env_truthy api_key then
    let prompt := build_prompt_for_openai w data in
    let r := chat_request prompt in
    let issued := [SetApiKey (default EmptyString api_key); RemoteCall r] in
    match remote_attempt w r with
    | Ok text => (Ok text, issued)
    | Raise e => (build_fallback_resume_text data, issued ++ [Warning e])
    end
  else (build_fallback_resume_text data, []).

(** The warnings in a trace. *)
Definition is_warning (e : event) : bool :=
  match e with Warning _ => true | _ => false end.

(** ** DocumentRenderer: the page model

    The part of FPDF the renderer drives: a cursor, the current font and
    text colour, and the items placed so far.  Lengths are millimetres.
    [cell] with [ln=True] places its text at the cursor, then moves to the
    left margin of the next line; [image] with both coordinates given leaves
    the cursor alone; a cell that would cross the page-break trigger starts
    a new page first.  How [multi_cell] wraps its text depends on font
    metrics, so the block is recorded with the position of its first line. *)

Definition font : Type := string * string * Z.
Definition color : Type := Z * Z * Z.

Inductive item :=
| Image (page : nat) (x y w h : Q)
| Cell (page : nat) (x y w h : Q) (txt : list N) (f : font) (c : color)
| MultiCell (page : nat) (x y w h : Q) (txt : list N) (f : font) (c : color).

Record FPDF := {
  pdf_page : nat;
  pdf_x : Q;
  pdf_y : Q;
  pdf_l_margin : Q;
  pdf_t_margin : Q;
  pdf_auto_break : bool;
  pdf_trigger : Q;
  pdf_font : font;
  pdf_color : color;
  pdf_items : list item
}.

Definition mm (z : Z) : Q := inject_Z z.

(** [FPDF()]: A4 portrait (841.89 pt high at 72/25.4 pt per mm), margins of
    1 cm (28.35 pt), page break two margins above the bottom edge. *)
Definition page_height : Q := Qmake 3564001 12000.
Definition default_margin : Q := Qmake 8001 800.

Definition FPDF_new : FPDF :=
  {| pdf_page := 0; pdf_x := mm 0; pdf_y := mm 0;
     pdf_l_margin := default_margin; pdf_t_margin := default_margin;
     pdf_auto_break := true;
     pdf_trigger := Qminus page_height (Qplus default_margin default_margin);
     pdf_font := (EmptyString, EmptyString, 12%Z); pdf_color := (0, 0, 0)%Z;
     pdf_items := [] |}.

Definition with_cursor (p : FPDF) (pg : nat) (x y : Q) : FPDF :=
  {| pdf_page := pg; pdf_x := x; pdf_y := y;
     pdf_l_margin := pdf_l_margin p; pdf_t_margin := pdf_t_margin p;
     pdf_auto_break := pdf_auto_break p; pdf_trigger := pdf_trigger p;
     pdf_font := pdf_font p; pdf_color := pdf_color p;
     pdf_items := pdf_items p |}.

Definition set_auto_page_break (auto : bool) (margin : Q) (p : FPDF) : FPDF :=
  {| pdf_page := pdf_page p; pdf_x := pdf_x p; pdf_y := pdf_y p;
     pdf_l_margin := pdf_l_margin p; pdf_t_margin := pdf_t_margin p;
     pdf_auto_break := auto; pdf_trigger := Qminus page_height margin;
     pdf_font := pdf_font p; pdf_color := pdf_color p;
     pdf_items := pdf_items p |}.

Definition add_page (p : FPDF) : FPDF :=
  with_cursor p (S (pdf_page p)) (pdf_l_margin p) (pdf_t_margin p).

Definition set_xy (x y : Q) (p : FPDF) : FPDF := with_cursor p (pdf_page p) x y.
Definition set_x (x : Q) (p : FPDF) : FPDF := with_cursor p (pdf_page p) x (pdf_y p).
Definition set_y (y : Q) (p : FPDF) : FPDF :=
  with_cursor p (pdf_page p) (pdf_l_margin p) y.
Definition get_y (p : FPDF) : Q := pdf_y p.

Definition set_font (f : font) (p : FPDF) : FPDF :=
  {| pdf_page := pdf_page p; pdf_x := pdf_x p; pdf_y := pdf_y p;
     pdf_l_margin := pdf_l_margin p; pdf_t_margin := pdf_t_margin p;
     pdf_auto_break := pdf_auto_break p; pdf_trigger := pdf_trigger p;
     pdf_font := f; pdf_color := pdf_color p; pdf_items := pdf_items p |}.

Definition set_text_color (c : color) (p : FPDF) : FPDF :=
  {| pdf_page := pdf_page p; pdf_x := pdf_x p; pdf_y := pdf_y p;
     pdf_l_margin := pdf_l_margin p; pdf_t_margin := pdf_t_margin p;
     pdf_auto_break := pdf_auto_break p; pdf_trigger := pdf_trigger p;
     pdf_font := pdf_font p; pdf_color := c; pdf_items := pdf_items p |}.

Definition place (i : item) (p : FPDF) : FPDF :=
  {| pdf_page := pdf_page p; pdf_x := pdf_x p; pdf_y := pdf_y p;
     pdf_l_margin := pdf_l_margin p; pdf_t_margin := pdf_t_margin p;
     pdf_auto_break := pdf_auto_break p; pdf_trigger := pdf_trigger p;
     pdf_font := pdf_font p; pdf_color := pdf_color p;
     pdf_items := pdf_items p ++ [i] |}.

(** The automatic page break a cell of height [h] performs before it is
    drawn: a new page, the abscissa kept. *)
Definition break_if_needed (h : Q) (p : FPDF) : FPDF :=
  if pdf_auto_break p && negb (Qle_bool (Qplus (pdf_y p) h) (pdf_trigger p))
  then with_cursor p (S (pdf_page p)) (pdf_x p) (pdf_t_margin p)
  else p.

(** [pdf.image(path, x=, y=, w=, h=)] *)
Definition image (x y w h : Q) (p : FPDF) : FPDF :=
  place (Image (pdf_page p) x y w h) p.

(** The library behind [from fpdf import FPDF].  With the core font
    Helvetica a text has to fit latin-1, and the two libraries refuse one
    that does not at different places: fpdf2 raises in [cell] and
    [multi_cell], before anything is drawn; the older fpdf draws it and
    raises in [output]. *)
Inductive fpdf_library :=
| PyFPDF
| FPDF2.

(** Every code point is below 256. *)
Definition latin1 (txt : list N) : bool := forallb (fun n => n <? 256) txt.

Definition accepts (lib : fpdf_library) (txt : list N) : bool :=
  match lib with
  | PyFPDF => true
  | FPDF2 => latin1 txt
  end.

(** What [cell] with [ln=True] and [multi_cell] do with a text they accept. *)
Definition place_cell_ln (w h : Q) (txt : list N) (p : FPDF) : FPDF :=
  let p := break_if_needed h p in
  let p := place (Cell (pdf_page p) (pdf_x p) (pdf_y p) w h txt
                       (pdf_font p) (pdf_color p)) p in
  with_cursor p (pdf_page p) (pdf_l_margin p) (Qplus (pdf_y p) h).

Definition place_multi_cell (w h : Q) (txt : list N) (p : FPDF) : FPDF :=
  let p := break_if_needed h p in
  place (MultiCell (pdf_page p) (pdf_x p) (pdf_y p) w h txt
                   (pdf_font p) (pdf_color p)) p.

(** Calls on the [pdf] object: its state is threaded, and a call that
    raises leaves it as it was. *)
Definition P (A : Type) : Type := FPDF -> result A * FPDF.

#[global] Instance P_ret : MRet P := fun A a p => (Ok a, p).

#[global] Instance P_bind : MBind P := fun A B k m p =>
  match m p with
  | (Ok a, p') => k a p'
  | (Raise e, p') => (Raise e, p')
  end.

Definition call (f : FPDF -> FPDF) : P unit := fun p => (Ok tt, f p).

Definition evaluate {A} (r : result A) : P A := fun p => (r, p).

Definition refuse {A} (e : exn) : P A := fun p => (Raise e, p).

(** [pdf.cell(w, h, txt, ln=True)] *)
Definition cell_ln (lib : fpdf_library) (w h : Q) (txt : list N) : P unit :=
  if accepts lib txt then call (place_cell_ln w h txt)
  else refuse FPDFUnicodeEncodingException.

(** [pdf.multi_cell(w, h, txt)] *)
Definition multi_cell (lib : fpdf_library) (w h : Q) (txt : list N)
  : P unit :=
  if accepts lib txt then call (place_multi_cell w h txt)
  else refuse FPDFUnicodeEncodingException.

(** The text of an item, and a page the older library can serialize. *)
Definition item_text (i : item) : list N :=
  match i with
  | Image _ _ _ _ _ => []
  | Cell _ _ _ _ _ txt _ _ => txt
  | MultiCell _ _ _ _ _ txt _ _ => txt
  end.

Definition page_latin1 (p : FPDF) : bool :=
  forallb (fun i => latin1 (item_text i)) (pdf_items p).

(** ** DocumentRenderer: files, failures and [create_pdf_bytes] *)

(** What [pdf.output(dest='S')] returns: a [str] in the older library, a
    byte array in the newer one. *)
Inductive pdf_out :=
| OutStr (s : list N)
| OutBytes (b : list Byte.byte).

(** What the renderer finds around it: the name the temporary file gets,
    the step of the photo block that fails (if any) with the exception it
    raises, the library installed, and the bytes of the document it makes
    of a page. *)
Record Env := {
  tmp_name : string;
  create_error : option exn;
  write_error : option exn;
  flush_error : option exn;
  close_error : option exn;
  open_error : option exn;
  save_error : option exn;
  image_error : option exn;
  library : fpdf_library;
  document : FPDF -> list Byte.byte
}.

(** The state [create_pdf_bytes] works on: the files that exist, what was
    printed, the [pdf] object and the local [tmp_path] (unbound at first). *)
Record rstate := {
  files : gset string;
  printed : list exn;
  pdf : FPDF;
  tmp_path : option string
}.

Definition M (A : Type) : Type := rstate -> result A * rstate.

#[global] Instance M_ret : MRet M := fun A a s => (Ok a, s).

#[global] Instance M_bind : MBind M := fun A B k m s =>
  match m s with
  | (Ok a, s') => k a s'
  | (Raise e, s') => (Raise e, s')
  end.

Definition raise {A} (e : exn) : M A := fun s => (Raise e, s).

(** A library call that fails when the environment says so. *)
Definition may_fail (err : option exn) : M unit :=
  match err with Some e => raise e | None => mret tt end.

Definition on_pdf (f : FPDF -> FPDF) : M unit := fun s =>
  (Ok tt, {| files := files s; printed := printed s; pdf := f (pdf s);
             tmp_path := tmp_path s |}).

Definition on_files (f : gset string -> gset string) : M unit := fun s =>
  (Ok tt, {| files := f (files s); printed := printed s; pdf := pdf s;
             tmp_path := tmp_path s |}).

Definition print (e : exn) : M unit := fun s =>
  (Ok tt, {| files := files s; printed := printed s ++ [e]; pdf := pdf s;
             tmp_path := tmp_path s |}).

Definition assign_tmp_path (p : string) : M unit := fun s =>
  (Ok tt, {| files := files s; printed := printed s; pdf := pdf s;
             tmp_path := Some p |}).

Definition read {A} (f : rstate -> A) : M A := fun s => (Ok (f s), s).

(** [try: body / except Exception as e: handler / finally: final] *)
Definition try_except_finally (body : M unit) (handler : exn -> M unit)
    (final : M unit) : M unit := fun s =>
  let '(r, s1) := body s in
  let '(r', s2) :=
    match r with
    | Ok _ => (Ok tt, s1)
    | Raise e => handler e s1
    end in
  let '(rf, s3) := final s2 in
  match rf with
  | Ok _ => (r', s3)
  | Raise e => (Raise e, s3)
  end.

(** [with tempfile.NamedTemporaryFile(delete=False, ...) as tmp: body]:
    the file exists once it is created; leaving the block closes it, and an
    exception of [close] replaces the one of the body. *)
Definition with_tempfile (env : Env) (body : M unit) : M unit := fun s =>
  match may_fail (create_error env) s with
  | (Raise e, s0) => (Raise e, s0)
  | (Ok _, s0) =>
      let '(_, s1) := on_files (fun fs => {[ tmp_name env ]} ∪ fs) s0 in
      let '(r, s2) := body s1 in
      match close_error env with
      | Some e => (Raise e, s2)
      | None => (r, s2)
      end
  end.

(** The [if photo_bytes:] block. *)
Definition embed_photo (env : Env) : M unit :=
  try_except_finally
    (with_tempfile env
       (may_fail (write_error env);;
        may_fail (flush_error env);;
        assign_tmp_path (tmp_name env));;
     may_fail (open_error env);;
     may_fail (save_error env);;
     may_fail (image_error env);;
     on_pdf (image (mm 15) (mm 20) (mm 35) (mm 35)))
    (fun e => print e)
    (bound ← read tmp_path;
     match bound with
     | Some p =>
         fs ← read files;
         if bool_decide (p ∈ fs) then on_files (fun fs => fs ∖ {[ p ]})
         else mret tt
     | None => mret tt
     end).

Definition heading_font : font := ("Helvetica", "B", 20%Z).
Definition body_font : font := ("Helvetica", EmptyString, 12%Z).

Definition primary_color (template : string) : color :=
  if String.eqb template "Modern Blue" then (0, 102, 204)%Z else (0, 0, 0)%Z.

(** [" | ".join(vs)]: every item has to be a [str]. *)
Fixpoint str_items (vs : list pyval) : result (list string) :=
  match vs with
  | [] => Ok []
  | VStr s :: vs' => ss ← str_items vs'; Ok (s :: ss)
  | _ :: _ => Raise TypeError
  end.

(** [out.encode('latin-1', 'ignore')] *)
Definition encode_latin1_ignore (s : list N) : list Byte.byte :=
  omap Byte.of_N s.

Definition bytes_truthy (b : option (list Byte.byte)) : bool :=
  match b with Some (_ :: _) => true | _ => false end.

Definition dict_truthy (d : option (gmap string pyval)) : bool :=
  match d with Some m => negb (bool_decide (m = ∅)) | None => false end.

Definition lift {A} (r : result A) : M A := fun s => (r, s).

(** The statements from [pdf.set_xy(60, 25)] to [pdf.multi_cell(...)]; they
    touch nothing but the [pdf] object. *)
Definition draw_page (lib : fpdf_library) (resume_text : string)
    (name : option string) (contact_info : option (gmap string pyval))
    (template : string) : P unit :=
  call (set_xy (mm 60) (mm 25));;
  call (set_text_color (primary_color template));;
  call (set_font heading_font);;
  cell_ln lib (mm 0) (mm 10) (upper (default EmptyString name));;
  (if dict_truthy contact_info then
     let info := default ∅ contact_info in
     call (set_font body_font);;
     call (set_text_color (0, 0, 0)%Z);;
     present ← evaluate (str_items (filter (fun v => truthy v = true)
                  [get info "city"; get info "phone"; get info "email"]));
     let contact_line := join " | " present in
     call (set_x (mm 60));;
     cell_ln lib (mm 0) (mm 8) (codepoints contact_line)
   else mret tt);;
  y ← (fun p => (Ok (get_y p), p));
  call (set_y (Qplus y (mm 10)));;
  call (set_font body_font);;
  multi_cell lib (mm 0) (mm 7) (codepoints resume_text).

(** [pdf.output(dest='S')]: bytes from fpdf2; from the older fpdf the same
    bytes as a [str], one character for each, unless the page holds a text
    that latin-1 cannot encode. *)
Definition pdf_output (env : Env) (p : FPDF) : result pdf_out :=
  match library env with
  | FPDF2 => Ok (OutBytes (document env p))
  | PyFPDF =>
      if page_latin1 p then Ok (OutStr (map Byte.to_N (document env p)))
      else Raise UnicodeEncodeError
  end.

(** [out = pdf.output(dest='S')] and
    [out.encode('latin-1', 'ignore') if isinstance(out, str) else out] *)
Definition serialize (env : Env) (p : FPDF) : result (list Byte.byte) :=
  out ← pdf_output env p;
  Ok (match out with
      | OutStr s => encode_latin1_ignore s
      | OutBytes b => b
      end).

(** A block of calls on the [pdf] object, run on the state. *)
Definition on_page {A} (m : P A) : M A := fun s =>
  let '(r, p) := m (pdf s) in
  (r, {| files := files s; printed := printed s; pdf := p;
         tmp_path := tmp_path s |}).

Definition create_pdf_bytes (env : Env) (resume_text : string)
    (name : option string) (contact_info : option (gmap string pyval))
    (template : string) (photo_bytes : option (list Byte.byte))
  : M (list Byte.byte) :=
  on_pdf (fun _ => add_page (set_auto_page_break true (mm 15) FPDF_new));;
  (if bytes_truthy photo_bytes then embed_photo env else mret tt);;
  on_page (draw_page (library env) resume_text name contact_info template);;
  after ← read pdf;
  lift (serialize env after).

(** A run from a given set of existing files. *)
Definition start (fs : gset string) : rstate :=
  {| files := fs; printed := []; pdf := FPDF_new; tmp_path := None |}.

(** ** Profiles as the data model describes them *)

Definition str_or_absent (data : gmap string pyval) (k : string) : bool :=
  match data !! k with
  | None | Some (VStr _) => true
  | Some _ => false
  end.

Definition list_or_absent (data : gmap string pyval) (k : string) : bool :=
  match data !! k with
  | None | Some (VList _) => true
  | Some _ => false
  end.

(** Every text field holds a [str] and every list field a list, when it is
    there at all. *)
Definition well_formed (data : gmap string pyval) : bool :=
  forallb (str_or_absent data)
    ["name"; "city"; "phone"; "email"; "trade"; "years_experience";
     "education"; "skills_text"; "experience_text"; "special_notes"]
  && forallb (list_or_absent data) ["skills_list"; "certifications"].

Definition str_field (data : gmap string pyval) (k : string) : string :=
  match data !! k with Some (VStr s) => s | _ => EmptyString end.

Definition list_field (data : gmap string pyval) (k : string) : list string :=
  match data !! k with Some (VList l) => l | _ => [] end.

(** The skills list, or what the free text gives when the list is missing
    or empty. *)
Definition resolved_skills (data : gmap string pyval) : list string :=
  match list_field data "skills_list" with
  | [] => stripped_nonempty (split "," (str_field data "skills_text"))
  | l => l
  end.

Definition resolved_certifications (data : gmap string pyval) : list string :=
  list_field data "certifications".

(** A text made of white space only. *)
Fixpoint blank (s : string) : bool :=
  match s with
  | EmptyString => true
  | String c s' => isspace c && blank s'
  end.

(** A labelled section, and a resume as sections separated by blank lines. *)
Definition section (label body : string) : string := label +:+ LF +:+ body.

Definition bullets (l : list string) : string := join LF (map bullet l).

Definition layout (summary : string) (exp skills : list string)
    (certs education : string) : string :=
  join (LF +:+ LF)
    ([ section "PROFESSIONAL SUMMARY" summary;
       section "EXPERIENCE" (bullets exp);
       section "SKILLS" (bullets skills);
       section "CERTIFICATIONS" certs ]
     ++ (if is_empty education then [] else [section "EDUCATION" education])).

Definition is_upper_label (s : string) : bool :=
  forallb (fun n => between 65 90 n || (n =? 32)) (codepoints s).

(** What the fallback computes on a well-formed profile, field by field. *)
Definition summary_of (data : gmap string pyval) : string :=
  let trade := str_field data "trade" in
  let notes := str_field data "special_notes" in
  "Reliable " +:+ trade +:+ " with " +:+ str_field data "years_experience"
  +:+ " years of experience in " +:+ lower trade +:+ " work. "
  +:+ (if is_empty notes then EmptyString else notes +:+ " ")
  +:+ closing_clause.

Definition exp_lines_of (data : gmap string pyval) : list string :=
  if_empty (stripped_nonempty (splitlines (str_field data "experience_text")))
           (generic_experience (lower (str_field data "trade"))).

Definition skills_of (data : gmap string pyval) : list string :=
  if_empty (resolved_skills data) (generic_skills (str_field data "trade")).

Definition certs_text_of (data : gmap string pyval) : string :=
  match resolved_certifications data with
  | [] => "N/A"
  | l => join ", " l
  end.

Definition parts_of (data : gmap string pyval) : list string :=
  [ "PROFESSIONAL SUMMARY" +:+ LF +:+ summary_of data +:+ LF;
    "EXPERIENCE" +:+ LF +:+ bullets (exp_lines_of data);
    LF +:+ "SKILLS" +:+ LF +:+ bullets (skills_of data);
    LF +:+ "CERTIFICATIONS" +:+ LF +:+ certs_text_of data ]
  ++ (if is_empty (str_field data "education") then []
      else [LF +:+ "EDUCATION" +:+ LF +:+ str_field data "education"]).

(** The keys the fallback text does not depend on. *)
Definition identity_keys : list string := ["name"; "city"; "phone"; "email"].

(** ** Sample inputs *)

Definition jane : gmap string pyval :=
  {[ "name" := VStr "Jane Doe"; "trade" := VStr "Welder";
     "years_experience" := VStr "5-10"; "skills_list" := VList [];
     "certifications" := VList []; "experience_text" := VStr "";
     "special_notes" := VStr "" ]}.

Definition jane_educated : gmap string pyval :=
  <[ "education" := VStr "Trade School Diploma" ]> jane.

(** ** The rendered page as the specification describes it *)

(** The contact fields hold a [str] when they are there at all. *)
Definition contact_ok (contact_info : option (gmap string pyval)) : bool :=
  match contact_info with
  | Some m => forallb (str_or_absent m) ["city"; "phone"; "email"]
  | None => true
  end.

(** The contact fields that are present, in the order city, phone, email. *)
Definition present_fields (contact_info : option (gmap string pyval))
  : list string :=
  let m := default ∅ contact_info in
  filter (fun s => negb (is_empty s))
    [str_field m "city"; str_field m "phone"; str_field m "email"].

Definition black : color := (0, 0, 0)%Z.

Definition photo_item : item := Image 1 (mm 15) (mm 20) (mm 35) (mm 35).

Definition heading_item (name : option string) (template : string) : item :=
  Cell 1 (mm 60) (mm 25) (mm 0) (mm 10) (upper (default EmptyString name))
       heading_font (primary_color template).

Definition contact_item (present : list string) : item :=
  Cell 1 (mm 60) (mm 35) (mm 0) (mm 8) (codepoints (join " | " present))
       body_font black.

Definition body_item (resume_text : string) (has_contact : bool)
    (template : string) : item :=
  if has_contact
  then MultiCell 1 default_margin (mm 53) (mm 0) (mm 7)
                 (codepoints resume_text) body_font black
  else MultiCell 1 default_margin (mm 45) (mm 0) (mm 7)
                 (codepoints resume_text) body_font (primary_color template).

Definition photo_items (embedded : bool) : list item :=
  if embedded then [photo_item] else [].

(** The items of a finished page: the photo if it was embedded, the name,
    the contact line if there is one, the body. *)
Definition page_layout (embedded : bool) (resume_text : string)
    (name : option string) (has_contact : bool) (present : list string)
    (template : string) : list item :=
  photo_items embedded
  ++ [heading_item name template]
  ++ (if has_contact then [contact_item present] else [])
  ++ [body_item resume_text has_contact template].

Definition is_photo (i : item) : bool :=
  match i with Image _ _ _ _ _ => true | _ => false end.



(** The items of the page and the final state of a run started with the
    files [fs]. *)
Definition rendered (env : Env) (resume_text : string) (name : option string)
    (contact_info : option (gmap string pyval)) (template : string)
    (photo_bytes : option (list Byte.byte)) (fs : gset string)
  : result (list Byte.byte) * rstate :=
  create_pdf_bytes env resume_text name contact_info template photo_bytes
    (start fs).

Definition page_items (run : result (list Byte.byte) * rstate) : list item :=
  pdf_items (pdf (snd run)).

(** The page [create_pdf_bytes] starts from, and the same page once the
    photo is on it. *)
Definition blank_page : FPDF :=
  add_page (set_auto_page_break true (mm 15) FPDF_new).

Definition start_page (embedded : bool) : FPDF :=
  if embedded then image (mm 15) (mm 20) (mm 35) (mm 35) blank_page
  else blank_page.

(** The page with everything drawn. *)
Definition drawn_page (embedded : bool) (resume_text : string)
    (name : option string) (has_contact : bool) (present : list string)
    (template : string) : FPDF :=
  {| pdf_page := 1; pdf_x := default_margin;
     pdf_y := if has_contact then mm 53 else mm 45;
     pdf_l_margin := default_margin; pdf_t_margin := default_margin;
     pdf_auto_break := true; pdf_trigger := Qminus page_height (mm 15);
     pdf_font := body_font;
     pdf_color := if has_contact then black else primary_color template;
     pdf_items :=
       page_layout embedded resume_text name has_contact present template |}.

(** The contact fields the contact line joins, or the exception of the
    join; nothing when there is no contact line. *)
Definition contact_result (contact_info : option (gmap string pyval))
  : result (list string) :=
  let info := default ∅ contact_info in
  if dict_truthy contact_info
  then str_items (filter (fun v => truthy v = true)
         [get info "city"; get info "phone"; get info "email"])
  else Ok [].

(** The page when the heading cell refuses the name: nothing drawn but the
    photo, the cursor at (60, 25), heading font and colour set. *)
Definition heading_refused_page (embedded : bool) (template : string)
  : FPDF :=
  {| pdf_page := 1; pdf_x := mm 60; pdf_y := mm 25;
     pdf_l_margin := default_margin; pdf_t_margin := default_margin;
     pdf_auto_break := true; pdf_trigger := Qminus page_height (mm 15);
     pdf_font := heading_font; pdf_color := primary_color template;
     pdf_items := photo_items embedded |}.

(** The page when joining the contact fields raises: the heading drawn, the
    cursor on the next line, body font and black set. *)
Definition contact_refused_page (embedded : bool) (name : option string)
    (template : string) : FPDF :=
  {| pdf_page := 1; pdf_x := default_margin; pdf_y := mm 35;
     pdf_l_margin := default_margin; pdf_t_margin := default_margin;
     pdf_auto_break := true; pdf_trigger := Qminus page_height (mm 15);
     pdf_font := body_font; pdf_color := black;
     pdf_items := photo_items embedded ++ [heading_item name template] |}.

(** Every step of the photo block succeeds. *)
Definition no_failure (env : Env) : bool :=
  forallb (fun err => match err with None => true | Some _ => false end)
    [create_error env; write_error env; flush_error env; close_error env;
     open_error env; save_error env; image_error env].

(** Whether the photo ends up on the page. *)
Definition embeds (env : Env) (photo_bytes : option (list Byte.byte)) : bool :=
  bytes_truthy photo_bytes && no_failure env.

(** The state when the photo block is left. *)
Definition after_photo (env : Env) (photo_bytes : option (list Byte.byte))
    (fs : gset string) : rstate :=
  let s := {| files := fs; printed := []; pdf := blank_page;
              tmp_path := None |} in
  if bytes_truthy photo_bytes then snd (embed_photo env s) else s.

Definition with_pdf (s : rstate) (p : FPDF) : rstate :=
  {| files := files s; printed := printed s; pdf := p;
     tmp_path := tmp_path s |}.

(** ** Sample environments *)

Definition pdf_header (p : FPDF) : list Byte.byte :=
  [Byte.x25; Byte.x50; Byte.x44; Byte.x46; Byte.x2d; Byte.x31; Byte.x2e;
   Byte.x33].

(** Nothing fails. *)
Definition calm : Env :=
  {| tmp_name := "/tmp/tmpk3x9q.png";
     create_error := None; write_error := None; flush_error := None;
     close_error := None; open_error := None; save_error := None;
     image_error := None; library := FPDF2; document := pdf_header |}.

(** Nothing fails, with the older library installed. *)
Definition calm_old : Env :=
  {| tmp_name := "/tmp/tmpk3x9q.png";
     create_error := None; write_error := None; flush_error := None;
     close_error := None; open_error := None; save_error := None;
     image_error := None; library := PyFPDF; document := pdf_header |}.

(** A name of one letter, U+00FF, whose capital U+0178 is outside latin-1. *)
Definition y_diaeresis : string := String (chr 255) EmptyString.

(** The bytes are not an image. *)
Definition corrupt_photo : Env :=
  {| tmp_name := "/tmp/tmpk3x9q.png";
     create_error := None; write_error := None; flush_error := None;
     close_error := None;
     open_error := Some (LibraryError "cannot identify image file");
     save_error := None; image_error := None; library := FPDF2;
     document := pdf_header |}.

(** The temporary directory has no room left for the upload. *)
Definition disk_full : Env :=
  {| tmp_name := "/tmp/tmpk3x9q.png";
     create_error := None;
     write_error := Some (LibraryError "[Errno 28] No space left on device");
     flush_error := None; close_error := None; open_error := None;
     save_error := None; image_error := None; library := FPDF2;
     document := pdf_header |}.

Definition one_byte : option (list Byte.byte) := Some [Byte.x89].


Definition jane_contact : option (gmap string pyval) :=
  Some {[ "city" := VStr "Tulsa"; "phone" := VStr "";
          "email" := VStr "jane@example.org" ]}.

(** A service that answers with an empty list of choices. *)
Definition no_choices : Remote :=
  {| OPENAI_AVAILABLE := true; OPENAI_API_KEY := Some "sk-test";
     json_dumps := fun _ => "{}";
     ChatCompletion_create := fun _ => Returns (JDict [("choices", JList [])]) |}.

(** A profile whose only certification is entered as "N/A". *)
Definition jane_na : gmap string pyval :=
  <[ "certifications" := VList ["N/A"] ]> jane.

(** The same person under another name and contact details. *)
Definition jane_renamed : gmap string pyval :=
  <[ "name" := VStr "J. Smith" ]>
    (<[ "email" := VStr "js@example.org" ]> jane_educated).

(** ** When the fallback raises *)

Definition is_str (v : pyval) : bool :=
  match v with VStr _ => true | _ => false end.

(** The exception [build_fallback_resume_text] ends with, statement by
    statement in the order of the source: lines 171, 173, 176, 184, 197. *)
Definition fallback_error (data : gmap string pyval) : option exn :=
  if negb (is_str (get_or data "trade" (VStr EmptyString)))
  then Some AttributeError
  else if truthy (get data "special_notes")
          && negb (is_str (get data "special_notes"))
  then Some TypeError
  else if negb (is_str (get_or data "experience_text" (VStr EmptyString)))
  then Some AttributeError
  else if negb (truthy (get data "skills_list"))
          && truthy (get data "skills_text")
          && negb (is_str (get data "skills_text"))
  then Some AttributeError
  else if truthy (get data "education")
          && negb (is_str (get data "education"))
  then Some TypeError
  else None.

(** A string that trimming leaves as it is and that is not empty. *)
Definition trimmed (s : string) : bool :=
  negb (is_empty s) && String.eqb (strip s) s.

(** ** The form and what happens on submit *)

(** The values of the widgets when the form is submitted. *)
Record Form := {
  f_name : string;
  f_city : string;
  f_phone : string;
  f_email : string;
  f_trade_choice : string;
  f_trade_other : string;
  f_years_experience : string;
  f_education : string;
  f_template : string;
  f_photo : option (list Byte.byte);
  f_skills_text : string;
  f_certifications : string;
  f_experience_text : string;
  f_special_notes : string
}.

(** [trade], after [if trade == "Other": trade = st.text_input(...)]. *)
Definition form_trade (f : Form) : string :=
  if String.eqb (f_trade_choice f) "Other" then f_trade_other f
  else f_trade_choice f.

(** The [data] dictionary of lines 313-326, as its items in the order they
    are written, and as the dictionary. *)
Definition form_items (f : Form) : list (string * pyval) :=
  [ ("name", VStr (strip (f_name f)));
    ("city", VStr (strip (f_city f)));
    ("phone", VStr (strip (f_phone f)));
    ("email", VStr (strip (f_email f)));
    ("trade", VStr (strip (form_trade f)));
    ("years_experience", VStr (f_years_experience f));
    ("education", VStr (strip (f_education f)));
    ("skills_text", VStr (strip (f_skills_text f)));
    ("skills_list", VList (stripped_nonempty (split "," (f_skills_text f))));
    ("certifications",
       VList (stripped_nonempty (splitlines (f_certifications f))));
    ("experience_text", VStr (strip (f_experience_text f)));
    ("special_notes", VStr (strip (f_special_notes f))) ].

Definition form_data (f : Form) : gmap string pyval :=
  list_to_map (form_items f).


(** [s.replace(a, b)] for one-character [a] and [b]. *)
Fixpoint replace_char (a b : ascii) (s : string) : string :=
  match s with
  | EmptyString => EmptyString
  | String c s' =>
      String (if Ascii.eqb c a then b else c) (replace_char a b s')
  end.

(** [x or d] on strings. *)
Definition str_or (x d : string) : string :=
  if is_empty x then d else x.

(** [f"{name.replace(' ', '_') or 'resume'}.pdf"] *)
Definition download_name (f : Form) : string :=
  str_or (replace_char " " "_" (f_name f)) "resume" +:+ ".pdf".



(** ** Session state and voice input *)

(** The fields of line 260. *)
Definition voice_fields : list string :=
  ["name"; "city"; "phone"; "email"; "education"; "skills_text";
   "certifications"; "experience_text"; "special_notes"].

(** Lines 260-262: [if field not in st.session_state: ... = ""]. *)
Definition init_field (st : gmap string pyval) (field : string)
  : gmap string pyval :=
  match st !! field with
  | Some _ => st
  | None => <[ field := VStr EmptyString ]> st
  end.

Definition init_session (st : gmap string pyval) : gmap string pyval :=
  fold_left init_field voice_fields st.

(** The exceptions of the speech library that [voice_input] names, and any
    other one. *)
Inductive voice_exn :=
| UnknownValueError
| RequestError
| WaitTimeoutError
| OtherError (msg : string).

(** What the microphone and the recognizer do: opening the microphone,
    listening, and recognizing may each raise; recognizing gives a text. *)
Record Voice := {
  microphone_error : option voice_exn;
  listen_error : option voice_exn;
  recognize_google : voice_exn + string
}.

(** The messages [voice_input] shows, one constructor for each call. *)
Inductive notice :=
| Listening (prompt : string)
| Recognized (prompt text : string)
| NotUnderstood
| ServiceUnavailable
| TimedOut.

Inductive spoken :=
| Said (text : string)
| Fails (e : voice_exn).

(** The [except] clauses of lines 122-127. *)
Definition handled (e : voice_exn) : option notice :=
  match e with
  | UnknownValueError => Some NotUnderstood
  | RequestError => Some ServiceUnavailable
  | WaitTimeoutError => Some TimedOut
  | OtherError _ => None
  end.

(** The [try] block of lines 117-121. *)
Definition listen_and_recognize (v : Voice) (prompt : string)
  : spoken * list notice :=
  match listen_error v with
  | Some e => (Fails e, [])
  | None =>
      match recognize_google v with
      | inl e => (Fails e, [])
      | inr text => (Said text, [Recognized prompt text])
      end
  end.

Definition voice_input (v : Voice) (prompt : string) : spoken * list notice :=
  match microphone_error v with
  | Some e => (Fails e, [])
  | None =>
      match listen_and_recognize v prompt with
      | (Said text, shown) => (Said text, Listening prompt :: shown)
      | (Fails e, shown) =>
          match handled e with
          | Some n => (Said EmptyString, Listening prompt :: shown ++ [n])
          | None => (Fails e, Listening prompt :: shown)
          end
      end
  end.

(** A button of lines 267-275:
    [if st.button(...): st.session_state.<field> = voice_input(<prompt>)].
    The result is the exception that ends the script (if any), the session
    state and the messages shown. *)
Definition speak (v : Voice) (field prompt : string)
    (st : gmap string pyval)
  : option voice_exn * gmap string pyval * list notice :=
  match voice_input v prompt with
  | (Said text, shown) => (None, <[ field := VStr text ]> st, shown)
  | (Fails e, shown) => (Some e, st, shown)
  end.

(** The buttons: the field each one fills and the prompt it speaks of. *)
Definition voice_buttons : list (string * string) :=
  [ ("name", "name"); ("city", "city or location");
    ("phone", "phone number"); ("email", "email address");
    ("education", "education or training");
    ("skills_text", "skills (say them separated by commas)");
    ("certifications", "certifications");
    ("experience_text", "work experience");
    ("special_notes", "special notes") ].

(** ** More sample inputs *)

Definition jane_experienced : gmap string pyval :=
  <[ "experience_text" :=
       VStr ("  Built steel frames " +:+ LF +:+ LF +:+ "Repaired tanks") ]>
    jane.

Definition jane_form : Form :=
  {| f_name := "Jane Doe"; f_city := "Tulsa"; f_phone := EmptyString;
     f_email := "jane@example.org"; f_trade_choice := "Welder";
     f_trade_other := EmptyString; f_years_experience := "5-10";
     f_education := EmptyString; f_template := "Modern Blue";
     f_photo := None; f_skills_text := " MIG welding, ,TIG ";
     f_certifications := "OSHA 10";
     f_experience_text := "Built steel frames";
     f_special_notes := EmptyString |}.

(** The first exception of the [try] block, if there is one. *)
Definition first_failure (v : Voice) : option voice_exn :=
  match listen_error v with
  | Some e => Some e
  | None =>
      match recognize_google v with
      | inl e => Some e
      | inr _ => None
      end
  end.

Definition is_said (r : spoken) : bool :=
  match r with Said _ => true | Fails _ => false end.

(** Nothing is heard within the five seconds. *)
Definition silence : Voice :=
  {| microphone_error := None; listen_error := Some WaitTimeoutError;
     recognize_google := inr EmptyString |}.

(** A service that answers as expected, with white space around the text. *)
Definition answers : Remote :=
  {| OPENAI_AVAILABLE := true; OPENAI_API_KEY := Some "sk-test";
     json_dumps := fun _ => "{}";
     ChatCompletion_create := fun _ =>
       Returns (JDict [("choices",
         JList [JDict [("message",
           JDict [("content", JStr "  PROFESSIONAL SUMMARY  ")])]])]) |}.

(** The exception the photo block catches, if any: the failing step, in the
    order of the statements; an exception of closing the temporary file
    comes in place of one of writing or flushing it. *)
Definition photo_failure (env : Env) : option exn :=
  match create_error env with
  | Some e => Some e
  | None =>
      match close_error env with
      | Some e => Some e
      | None =>
          match write_error env, flush_error env, open_error env,
                save_error env, image_error env with
          | Some e, _, _, _, _
          | None, Some e, _, _, _
          | None, None, Some e, _, _
          | None, None, None, Some e, _
          | None, None, None, None, Some e => Some e
          | None, None, None, None, None => None
          end
      end
  end.

(** ** [json.dumps(data, indent=2)] on the submitted dictionary *)

(** [json.encoder.py_encode_basestring_ascii]: the two-character escapes,
    the printable ASCII characters as they are, [\u00xx] for the rest. *)
Definition json_escape_char (c : ascii) : string :=
  let n := ord c in
  if n =? 34 then String backslash (String dquote EmptyString)
  else if n =? 92 then String backslash (String backslash EmptyString)
  else if n =? 10 then String backslash "n"
  else if n =? 13 then String backslash "r"
  else if n =? 9 then String backslash "t"
  else if n =? 8 then String backslash "b"
  else if n =? 12 then String backslash "f"
  else if between 32 126 n then String c EmptyString
  else String backslash
         ("u00" +:+ String (hex_digit (n / 16))
                      (String (hex_digit (n mod 16)) EmptyString)).

Fixpoint json_escape (s : string) : string :=
  match s with
  | EmptyString => EmptyString
  | String c s' => json_escape_char c +:+ json_escape s'
  end.

Definition json_string (s : string) : string :=
  String dquote (json_escape s +:+ String dquote EmptyString).

(** A value of a top-level item: a list puts each element on a line of its
    own, four spaces in, and closes two spaces in. *)
Definition json_value (v : pyval) : string :=
  match v with
  | VNone => "null"
  | VStr s => json_string s
  | VList [] => "[]"
  | VList l =>
      "[" +:+ LF
      +:+ join ("," +:+ LF) (map (fun s => "    " +:+ json_string s) l)
      +:+ LF +:+ "  ]"
  end.

Definition json_item (kv : string * pyval) : string :=
  "  " +:+ json_string (fst kv) +:+ ": " +:+ json_value (snd kv).

(** The dictionary, given as its items in insertion order. *)
Definition dumps_indent2 (items : list (string * pyval)) : string :=
  match items with
  | [] => "{}"
  | _ :: _ =>
      "{" +:+ LF +:+ join ("," +:+ LF) (map json_item items) +:+ LF +:+ "}"
  end.

(** Printable ASCII or a line feed. *)
Definition plain (c : ascii) : bool :=
  between 32 126 (ord c) || (ord c =? 10).

Fixpoint all_plain (s : string) : bool :=
  match s with
  | EmptyString => true
  | String c s' => plain c && all_plain s'
  end.

(** The keys of the submitted dictionary in the order they are written. *)
Definition form_keys : list string :=
  ["name"; "city"; "phone"; "email"; "trade"; "years_experience";
   "education"; "skills_text"; "skills_list"; "certifications";
   "experience_text"; "special_notes"].

(** A service whose [json.dumps] is the one above, on dictionaries written
    in the order of the form. *)
Definition dumping : Remote :=
  {| OPENAI_AVAILABLE := true; OPENAI_API_KEY := Some "sk-test";
     json_dumps := fun d =>
       dumps_indent2 (omap (fun k => pair k <$> d !! k) form_keys);
     ChatCompletion_create := fun _ => Throws (LibraryError "timed out") |}.

(** * Properties *)

#[local] Arguments String.append !_ _ / : simpl nomatch.
#[local] Set Warnings "-clear-no-such-hyp".

(** ** Strings *)

Example strip_ex : strip "  MIG  welding " = "MIG  welding".
Proof. reflexivity. Qed.

Example splitlines_ex :
  splitlines ("a" +:+ LF +:+ LF +:+ "b" +:+ LF) = ["a"; ""; "b"].
Proof. reflexivity. Qed.

Example split_ex : split "," "a,,b," = ["a"; ""; "b"; ""].
Proof. reflexivity. Qed.

Example lower_ex : lower "HVAC Technician" = "hvac technician".
Proof. reflexivity. Qed.

Example repr_ex : repr "it's" = String dquote ("it's" +:+ String dquote "").
Proof. reflexivity. Qed.

Lemma app_assoc_str (a b c : string) : (a +:+ b) +:+ c = a +:+ (b +:+ c).
Proof. induction a as [| x a IH]; simpl; [reflexivity | f_equal; exact IH]. Qed.

Lemma app_empty_r (a : string) : a +:+ EmptyString = a.
Proof. induction a as [| x a IH]; simpl; [reflexivity | f_equal; exact IH]. Qed.

(** *** Trimming and splitting *)

Lemma linebreak_isspace (c : ascii) :
  is_linebreak c = true -> isspace c = true.
Proof.
  destruct c as [[] [] [] [] [] [] [] []]; vm_compute; congruence.
Qed.

Lemma lstrip_blank (s : string) : blank s = true -> lstrip s = EmptyString.
Proof.
  induction s as [| c s IH]; simpl; [reflexivity |].
  intros H. apply andb_true_iff in H as [Hc Hs]. rewrite Hc. auto.
Qed.

Lemma lstrip_not_blank (s : string) :
  blank s = false ->
  exists c r, lstrip s = String c r /\ isspace c = false.
Proof.
  induction s as [| c s IH]; simpl; [discriminate |].
  destruct (isspace c) eqn:Hc; simpl; [exact IH |].
  intros _. exists c, s. auto.
Qed.

Lemma rstrip_keeps_head (c : ascii) (r : string) :
  isspace c = false -> is_empty (rstrip (String c r)) = false.
Proof.
  intros Hc. cbn [rstrip]. rewrite Hc, andb_false_r. reflexivity.
Qed.

(** A string trims to nothing exactly when it is white space only. *)
Lemma strip_empty_iff_blank (s : string) : is_empty (strip s) = blank s.
Proof.
  unfold strip. destruct (blank s) eqn:Hb.
  - now rewrite (lstrip_blank s Hb).
  - destruct (lstrip_not_blank s Hb) as (c & r & -> & Hc).
    now apply rstrip_keeps_head.
Qed.

Lemma blank_app (a b : string) : blank (a +:+ b) = blank a && blank b.
Proof.
  induction a as [| c a IH]; simpl; [reflexivity |].
  now rewrite IH, andb_assoc.
Qed.

Lemma stripped_nonempty_nil (ls : list string) :
  stripped_nonempty ls = [] <-> forallb blank ls = true.
Proof.
  unfold stripped_nonempty. induction ls as [| l ls IH]; [easy |].
  rewrite filter_cons. cbn [forallb]. rewrite <- strip_empty_iff_blank.
  case_decide as H; destruct (is_empty (strip l)); simpl in *.
  - destruct H.
  - split; discriminate.
  - exact IH.
  - destruct H. exact I.
Qed.

Lemma splitlines_from_cons (line : string) (c : ascii) (s : string) :
  splitlines_from line (String c s)
  = if is_linebreak c then
      line :: splitlines_from EmptyString
                (match s with
                 | String c' s' =>
                     if (ord c =? 13) && (ord c' =? 10) then s' else s
                 | EmptyString => s
                 end)
    else splitlines_from (line +:+ String c EmptyString) s.
Proof.
  cbn [splitlines_from]. destruct (is_linebreak c); [| reflexivity].
  destruct s as [| c' s']; [reflexivity |].
  now destruct ((ord c =? 13) && (ord c' =? 10)).
Qed.

Lemma splitlines_from_blank (s : string) :
  (forall line,
     forallb blank (splitlines_from line s) = blank line && blank s)
  /\ (forall c line,
        forallb blank (splitlines_from line (String c s))
        = blank line && blank (String c s)).
Proof.
  induction s as [| c' s [IH1 IH2]].
  - split.
    + intros line. cbn [splitlines_from blank]. rewrite andb_true_r.
      destruct line; [reflexivity |]. cbn [is_empty forallb].
      now rewrite andb_true_r.
    + intros c line. rewrite splitlines_from_cons.
      cbn [splitlines_from blank is_empty].
      destruct (is_linebreak c) eqn:Hl.
      * cbn [forallb]. now rewrite (linebreak_isspace c Hl).
      * rewrite andb_true_r.
        assert (H : is_empty (line +:+ String c EmptyString) = false)
          by (destruct line; reflexivity).
        rewrite H. cbn [forallb]. rewrite blank_app. cbn [blank].
        now rewrite !andb_true_r.
  - split; [exact (IH2 c') |].
    intros c line. rewrite splitlines_from_cons.
    destruct (is_linebreak c) eqn:Hl.
    + assert (Hc : blank (String c (String c' s)) = blank (String c' s))
        by (cbn [blank]; now rewrite (linebreak_isspace c Hl)).
      rewrite Hc.
      destruct ((ord c =? 13) && (ord c' =? 10)) eqn:Hcr; cbn [forallb].
      * rewrite IH1. cbn [blank].
        apply andb_true_iff in Hcr as [_ Hlf].
        assert (Hs : is_linebreak c' = true).
        { unfold is_linebreak. apply N.eqb_eq in Hlf. now rewrite Hlf. }
        now rewrite (linebreak_isspace c' Hs).
      * now rewrite IH2.
    + rewrite IH2, blank_app. cbn [blank].
      now destruct (blank line), (isspace c), (isspace c'), (blank s).
Qed.

(** The experience text has no line that is non-empty once trimmed exactly
    when it is white space from end to end. *)
Lemma no_trimmed_line_iff_blank (s : string) :
  stripped_nonempty (splitlines s) = [] <-> blank s = true.
Proof.
  rewrite stripped_nonempty_nil. unfold splitlines.
  destruct (splitlines_from_blank s) as [H _]. now rewrite H.
Qed.

(** ** The fallback on well-formed profiles *)

Lemma wf_fields (data : gmap string pyval) :
  well_formed data = true ->
  forallb (str_or_absent data)
    ["trade"; "years_experience"; "education"; "skills_text";
     "experience_text"; "special_notes"] = true
  /\ forallb (list_or_absent data) ["skills_list"; "certifications"] = true.
Proof.
  intros wf.
  unfold well_formed in wf. apply andb_true_iff in wf as [Hs Hl].
  split; [| exact Hl].
  simpl in Hs. repeat (apply andb_true_iff in Hs as [? Hs]).
  simpl. repeat (apply andb_true_iff; split); assumption.
Qed.

(** One lemma for each statement of the fallback that reads the profile. *)
Section Steps.

Variable data : gmap string pyval.

Lemma get_or_str k :
  str_or_absent data k = true ->
  get_or data k (VStr EmptyString) = VStr (str_field data k).
Proof.
  unfold str_or_absent, get_or, str_field.
  destruct (data !! k) as [[| s |]|]; simpl; congruence.
Qed.

Lemma truthy_get_str k :
  str_or_absent data k = true ->
  truthy (get data k) = negb (is_empty (str_field data k)).
Proof.
  unfold str_or_absent, get, str_field.
  destruct (data !! k) as [[| s |]|]; simpl; congruence.
Qed.

Lemma get_str_truthy k :
  str_or_absent data k = true ->
  is_empty (str_field data k) = false ->
  get data k = VStr (str_field data k).
Proof.
  unfold str_or_absent, get, str_field.
  destruct (data !! k) as [[| s |]|]; simpl; congruence.
Qed.

Lemma notes_step k s :
  str_or_absent data k = true ->
  (if truthy (get data k)
   then notes ← py_add_str (get data k) " "; Ok (s +:+ notes)
   else Ok s)
  = Ok (s +:+ (if is_empty (str_field data k) then EmptyString
               else str_field data k +:+ " ")).
Proof.
  intros H. rewrite (truthy_get_str _ H).
  destruct (is_empty (str_field data k)) eqn:E; simpl.
  - now rewrite app_empty_r.
  - now rewrite (get_str_truthy _ H E).
Qed.

Lemma education_step k pre (ps : list string) :
  str_or_absent data k = true ->
  (if truthy (get data k)
   then edu ← py_str_add pre (get data k); Ok (ps ++ [edu])
   else Ok ps)
  = Ok (ps ++ (if is_empty (str_field data k) then []
               else [pre +:+ str_field data k])).
Proof.
  intros H. rewrite (truthy_get_str _ H).
  destruct (is_empty (str_field data k)) eqn:E; simpl.
  - now rewrite app_nil_r.
  - now rewrite (get_str_truthy _ H E).
Qed.

Lemma skills_step :
  list_or_absent data "skills_list" = true ->
  str_or_absent data "skills_text" = true ->
  (if truthy (get data "skills_list")
   then Ok (py_iter (get data "skills_list"))
   else
     let text :=
       if truthy (get data "skills_text")
       then get data "skills_text" else VStr EmptyString in
     fields ← py_split text ","; Ok (stripped_nonempty fields))
  = Ok (resolved_skills data).
Proof.
  intros Hl Hs. unfold resolved_skills.
  assert (Ht : (if truthy (get data "skills_text")
                then get data "skills_text" else VStr EmptyString)
               = VStr (str_field data "skills_text")).
  { rewrite (truthy_get_str _ Hs).
    destruct (is_empty (str_field data "skills_text")) eqn:E; simpl.
    - destruct (str_field data "skills_text"); [reflexivity | discriminate].
    - exact (get_str_truthy _ Hs E). }
  cbv zeta. rewrite Ht. clear Ht.
  unfold list_or_absent, get, list_field in *.
  destruct (data !! "skills_list") as [[| | [| x l]]|];
    try discriminate; reflexivity.
Qed.

Lemma certs_step :
  list_or_absent data "certifications" = true ->
  (let certs :=
     if truthy (get data "certifications")
     then get data "certifications" else VList [] in
   if truthy certs then join ", " (py_iter certs) else "N/A")
  = certs_text_of data.
Proof.
  unfold list_or_absent, certs_text_of, resolved_certifications, get,
    list_field.
  destruct (data !! "certifications") as [[| | [| x l]]|];
    try discriminate; reflexivity.
Qed.

End Steps.

Lemma fallback_locals_wf (data : gmap string pyval) :
  well_formed data = true ->
  fallback_locals data =
  Ok {| summary := summary_of data; exp_lines := exp_lines_of data;
        skills := skills_of data; certs_text := certs_text_of data;
        parts := parts_of data |}.
Proof.
  intros wf.
  destruct (wf_fields data wf) as [Hs Hl]. simpl in Hs, Hl.
  repeat (apply andb_true_iff in Hs as [? Hs]).
  repeat (apply andb_true_iff in Hl as [? Hl]).
  unfold fallback_locals. cbv zeta.
  rewrite !get_or_str by assumption.
  cbn [py_lower py_str py_splitlines mbind result_bind].
  rewrite notes_step by assumption. cbn [mbind result_bind].
  rewrite skills_step by assumption. cbn [mbind result_bind].
  rewrite education_step by assumption. cbn [mbind result_bind].
  pose proof (certs_step data ltac:(assumption)) as Hc. cbv zeta in Hc.
  rewrite Hc.
  unfold parts_of, summary_of, exp_lines_of, skills_of, bullets. cbv zeta.
  rewrite !app_assoc_str.
  reflexivity.
Qed.

Lemma build_fallback_wf (data : gmap string pyval) :
  well_formed data = true ->
  build_fallback_resume_text data = Ok (join LF (parts_of data)).
Proof.
  intros wf. unfold build_fallback_resume_text.
  now rewrite (fallback_locals_wf data wf).
Qed.



Lemma contains_app (c : ascii) (a b : string) :
  contains c (a +:+ b) = contains c a || contains c b.
Proof.
  induction a as [| x a IH]; simpl; [reflexivity |].
  rewrite IH. now rewrite orb_assoc.
Qed.

Lemma join_comma_na (l : list string) :
  join ", " l = "N/A" <-> l = ["N/A"].
Proof.
  split; [| intros ->; reflexivity].
  destruct l as [| x [| y l]]; simpl.
  - discriminate.
  - now intros ->.
  - intros H. apply (f_equal (contains ",")) in H.
    rewrite !contains_app in H. simpl in H.
    rewrite orb_true_r in H. discriminate.
Qed.

(** Outside the data model the fallback raises: a trade that is [None], or
    notes that are a list. *)
Example fallback_none_trade :
  build_fallback_resume_text (<[ "trade" := VNone ]> jane)
  = Raise AttributeError.
Proof. reflexivity. Qed.

Example fallback_list_notes :
  build_fallback_resume_text (<[ "special_notes" := VList ["a"] ]> jane)
  = Raise TypeError.
Proof. reflexivity. Qed.

(** ** C1: the professional summary *)

(** C1. On every well-formed profile the fallback builds its summary as
    "Reliable <trade> with <years> years of experience in <trade, lower
    case> work. ", then the special notes and one space when the notes are
    not empty, then the closing clause; the text opens with the summary
    under its heading. *)
Theorem fallback_summary (data : gmap string pyval) :
  well_formed data = true ->
  exists l rest,
    fallback_locals data = Ok l
    /\ summary l =
         "Reliable " +:+ str_field data "trade" +:+ " with "
         +:+ str_field data "years_experience"
         +:+ " years of experience in "
         +:+ lower (str_field data "trade") +:+ " work. "
         +:+ (if is_empty (str_field data "special_notes") then EmptyString
              else str_field data "special_notes" +:+ " ")
         +:+ "Known for strong work ethic, safety-first approach, and consistent on-time completion of projects."
    /\ build_fallback_resume_text data =
         Ok ("PROFESSIONAL SUMMARY" +:+ LF +:+ summary l +:+ LF +:+ rest).
Proof.
  intros wf.
  eexists; exists (LF +:+ join LF (tail (parts_of data))).
  split; [exact (fallback_locals_wf data wf) |].
  split; [reflexivity |].
  rewrite (build_fallback_wf data wf).
  unfold parts_of. cbn [app tail join summary].
  destruct (is_empty (str_field data "education"));
    cbn [app join]; now rewrite !app_assoc_str.
Qed.

(** The scenario of the specification: Jane Doe, welder, 5-10 years. *)
Lemma fallback_summary_jane :
  well_formed jane = true
  /\ exists l rest,
       fallback_locals jane = Ok l
       /\ summary l =
            "Reliable Welder with 5-10 years of experience in welder work. Known for strong work ethic, safety-first approach, and consistent on-time completion of projects."
       /\ build_fallback_resume_text jane =
            Ok ("PROFESSIONAL SUMMARY" +:+ LF +:+ summary l +:+ LF +:+ rest).
Proof.
  split; [reflexivity |].
  destruct (fallback_summary jane eq_refl) as (l & rest & Hl & Hs & Ht).
  exists l, rest. split; [exact Hl |]. split; [exact Hs | exact Ht].
Defined.

(** ** C2: generic bullets, never an empty section *)



(** ** C3: the certifications line *)

(** C3, as stated, fails: a profile whose certifications list is the single
    entry "N/A" gets the line "N/A" although the list is not empty. *)
Lemma certifications_na_without_empty_list :
  ~ (forall l, fallback_locals jane_na = Ok l ->
       (certs_text l = "N/A" <-> resolved_certifications jane_na = [])).
Proof.
  intros H.
  destruct (H _ (fallback_locals_wf jane_na eq_refl)) as [Hna _].
  specialize (Hna eq_refl). discriminate Hna.
Qed.

(** C3, amended. On every well-formed profile the certifications line is
    "N/A" when the resolved list is empty and the ", "-join of the list in
    its order otherwise; it reads "N/A" exactly when the list is empty or is
    the single entry "N/A"; it is the body of the Certifications section. *)
Theorem certifications_line (data : gmap string pyval) :
  well_formed data = true ->
  exists l,
    fallback_locals data = Ok l
    /\ (resolved_certifications data = [] -> certs_text l = "N/A")
    /\ (resolved_certifications data <> [] ->
        certs_text l = join ", " (resolved_certifications data))
    /\ (certs_text l = "N/A" <->
        resolved_certifications data = []
        \/ resolved_certifications data = ["N/A"])
    /\ parts l !! 3%nat
       = Some (LF +:+ "CERTIFICATIONS" +:+ LF +:+ certs_text l).
Proof.
  intros wf. eexists. split; [exact (fallback_locals_wf data wf) |].
  cbn [certs_text parts].
  assert (Hp : parts_of data !! 3%nat
               = Some (LF +:+ "CERTIFICATIONS" +:+ LF +:+ certs_text_of data))
    by reflexivity.
  revert Hp. generalize (parts_of data). intros ps Hp.
  unfold certs_text_of in *.
  destruct (resolved_certifications data) as [| x l] eqn:E.
  - split; [reflexivity |]. split; [intros H; now destruct H |].
    split; [| exact Hp]. split; [now left | reflexivity].
  - split; [discriminate |]. split; [reflexivity |].
    split; [| exact Hp]. split.
    + intros H. right. now apply join_comma_na.
    + intros [H | H]; [discriminate | now apply join_comma_na].
Qed.

Lemma certifications_line_jane :
  well_formed jane_na = true
  /\ exists l, fallback_locals jane_na = Ok l /\ certs_text l = "N/A".
Proof.
  split; [reflexivity |].
  destruct (certifications_line jane_na eq_refl) as (l & Hl & _ & Hj & _).
  exists l. split; [exact Hl |]. apply Hj. discriminate.
Defined.

(** ** C4: the order of the sections *)

(** C4. On every well-formed profile the text is the sections Professional
    Summary, Experience, Skills, Certifications and, exactly when the
    education field is not empty, Education, in that order, separated by
    blank lines, each an upper-case label on a line of its own followed by
    its body; the bullets are the lines prefixed with "- "; an Education
    section holds the education string as it is. *)
Theorem fallback_layout (data : gmap string pyval) :
  well_formed data = true ->
  exists l,
    fallback_locals data = Ok l
    /\ build_fallback_resume_text data =
         Ok (layout (summary l) (exp_lines l) (skills l) (certs_text l)
                    (str_field data "education"))
    /\ length (parts l)
       = (if is_empty (str_field data "education") then 4 else 5)%nat
    /\ parts l !! 4%nat
       = (if is_empty (str_field data "education") then None
          else Some (LF +:+ "EDUCATION" +:+ LF +:+ str_field data "education"))
    /\ forallb is_upper_label
         ["PROFESSIONAL SUMMARY"; "EXPERIENCE"; "SKILLS"; "CERTIFICATIONS";
          "EDUCATION"] = true
    /\ (forall e, bullet e = "- " +:+ e).
Proof.
  intros wf. eexists. split; [exact (fallback_locals_wf data wf) |].
  cbn [summary exp_lines skills certs_text parts].
  split.
  - rewrite (build_fallback_wf data wf). unfold parts_of, layout, section.
    destruct (is_empty (str_field data "education"));
      cbn [app join]; now rewrite !app_assoc_str.
  - unfold parts_of.
    destruct (is_empty (str_field data "education")); repeat split.
Qed.

Lemma fallback_layout_jane :
  well_formed jane_educated = true
  /\ exists l,
       fallback_locals jane_educated = Ok l
       /\ parts l !! 4%nat
          = Some (LF +:+ "EDUCATION" +:+ LF +:+ "Trade School Diploma").
Proof.
  split; [reflexivity |].
  destruct (fallback_layout jane_educated eq_refl) as (l & Hl & _ & _ & He & _).
  exists l. split; [exact Hl | exact He].
Defined.

(** ** C10: name and contact details do not reach the text *)

Lemma not_identity_key (k : string) :
  (if bool_decide (k ∈ identity_keys) then False else True) -> k ∉ identity_keys.
Proof. case_bool_decide; tauto. Qed.

(** C10. Two profiles that agree on every key other than name, city, phone
    and email get the same fallback result, the text as well as the
    failure. *)
Theorem fallback_ignores_identity (d1 d2 : gmap string pyval) :
  (forall k, k ∉ identity_keys -> d1 !! k = d2 !! k) ->
  build_fallback_resume_text d1 = build_fallback_resume_text d2.
Proof.
  intros H.
  assert (Hg : forall k, k ∉ identity_keys -> get d1 k = get d2 k).
  { intros k Hk. unfold get. now rewrite (H k Hk). }
  assert (Ho : forall k v, k ∉ identity_keys -> get_or d1 k v = get_or d2 k v).
  { intros k v Hk. unfold get_or. now rewrite (H k Hk). }
  unfold build_fallback_resume_text. f_equal.
  unfold fallback_locals. cbv zeta.
  rewrite !Ho by (apply not_identity_key; vm_compute; exact I).
  rewrite !Hg by (apply not_identity_key; vm_compute; exact I).
  reflexivity.
Qed.

Lemma fallback_ignores_identity_jane :
  build_fallback_resume_text jane_educated
  = build_fallback_resume_text jane_renamed.
Proof.
  apply fallback_ignores_identity.
  intros k Hk. unfold jane_renamed.
  rewrite !lookup_insert_ne; [reflexivity | |];
    intros <-; apply Hk; unfold identity_keys; set_solver.
Defined.

(** ** C5: the remote path never brings the synthesis down *)

(** C5. On every well-formed profile the fallback text exists, and
    [generate_resume_text]: makes no call and returns the fallback text when
    the library or the key is missing; returns the fallback text after one
    warning when the call throws or when the answer has not the expected
    shape; never raises; issues at most one warning. *)
Theorem generate_falls_back (w : Remote) (data : gmap string pyval) :
  well_formed data = true ->
  let r := chat_request (build_prompt_for_openai w data) in
  let issued := [SetApiKey (default EmptyString (OPENAI_API_KEY w)); RemoteCall r] in
  exists text,
    build_fallback_resume_text data = Ok text
    /\ (OPENAI_AVAILABLE w = false \/ env_truthy (OPENAI_API_KEY w) = false ->
        generate_resume_text w data = (Ok text, []))
    /\ (OPENAI_AVAILABLE w = true -> env_truthy (OPENAI_API_KEY w) = true ->
        forall e, ChatCompletion_create w r = Throws e ->
        generate_resume_text w data = (Ok text, issued ++ [Warning e]))
    /\ (OPENAI_AVAILABLE w = true -> env_truthy (OPENAI_API_KEY w) = true ->
        forall resp e, ChatCompletion_create w r = Returns resp ->
        response_content resp = Raise e ->
        generate_resume_text w data = (Ok text, issued ++ [Warning e]))
    /\ is_ok (fst (generate_resume_text w data)) = true
    /\ (length (filter (fun ev => is_warning ev = true)
                  (snd (generate_resume_text w data))) <= 1)%nat.
Proof.
  intros wf r issued. exists (join LF (parts_of data)).
  pose proof (build_fallback_wf data wf) as Hf.
  split; [exact Hf |].
  unfold generate_resume_text. fold r. cbv zeta. fold issued.
  unfold remote_attempt. rewrite Hf.
  split; [| split; [| split]].
  - intros [-> | ->]; [reflexivity | now rewrite andb_false_r].
  - intros -> -> e ->. reflexivity.
  - intros -> -> resp e -> ->. reflexivity.
  - destruct (OPENAI_AVAILABLE w && env_truthy (OPENAI_API_KEY w));
      [| split; [reflexivity | simpl; lia]].
    destruct (ChatCompletion_create w r) as [resp | e];
      [destruct (response_content resp) |]; split; try reflexivity;
      simpl; lia.
Qed.

Lemma generate_falls_back_no_choices :
  well_formed jane = true
  /\ fst (generate_resume_text no_choices jane)
     = build_fallback_resume_text jane
  /\ snd (generate_resume_text no_choices jane)
     = [ SetApiKey "sk-test";
         RemoteCall (chat_request (build_prompt_for_openai no_choices jane));
         Warning IndexError ].
Proof.
  split; [reflexivity |].
  destruct (generate_falls_back no_choices jane eq_refl)
    as (text & Hf & _ & _ & Hm & _).
  rewrite (Hm eq_refl eq_refl _ IndexError eq_refl eq_refl), Hf.
  split; reflexivity.
Defined.

(** ** The photo block *)

Ltac run_photo :=
  lazy beta iota zeta delta
    [embed_photo try_except_finally with_tempfile may_fail raise print
     on_pdf on_files assign_tmp_path read mbind mret M_bind M_ret
     files printed pdf tmp_path tmp_name create_error write_error
     flush_error close_error open_error save_error image_error fst snd].

Lemma embed_photo_pdf (env : Env) (s : rstate) :
  fst (embed_photo env s) = Ok tt
  /\ pdf (snd (embed_photo env s))
     = if no_failure env
       then image (mm 15) (mm 20) (mm 35) (mm 35) (pdf s) else pdf s.
Proof.
  destruct s as [fs pr p [tp|]];
  destruct env as [tmp [e1|] [e2|] [e3|] [e4|] [e5|] [e6|] [e7|] out];
    run_photo; repeat case_bool_decide; run_photo; split; reflexivity.
Qed.

(** ** Drawing the page *)

Lemma contact_present (contact_info : option (gmap string pyval)) :
  contact_ok contact_info = true ->
  let info := default ∅ contact_info in
  str_items (filter (fun v => truthy v = true)
               [get info "city"; get info "phone"; get info "email"])
  = Ok (present_fields contact_info).
Proof.
  intros H. unfold present_fields. cbv zeta.
  assert (Hk : forallb (str_or_absent (default ∅ contact_info))
                 ["city"; "phone"; "email"] = true).
  { destruct contact_info as [m |]; [exact H | reflexivity]. }
  clear H. generalize dependent (default ∅ contact_info). intros m Hk.
  simpl in Hk. repeat (apply andb_true_iff in Hk as [? Hk]).
  unfold str_or_absent, get, str_field in *.
  destruct (m !! "city") as [[| [| ? ?] |]|]; try discriminate;
  destruct (m !! "phone") as [[| [| ? ?] |]|]; try discriminate;
  destruct (m !! "email") as [[| [| ? ?] |]|]; try discriminate;
  reflexivity.
Qed.

Lemma latin1_codepoints (s : string) : latin1 (codepoints s) = true.
Proof.
  induction s as [| c s IH]; [reflexivity |].
  cbn [codepoints latin1 forallb]. fold (latin1 (codepoints s)).
  rewrite IH, andb_true_r. apply N.ltb_lt, N_ascii_bounded.
Qed.

Lemma accepts_codepoints (lib : fpdf_library) (s : string) :
  accepts lib (codepoints s) = true.
Proof. destruct lib; [reflexivity | apply latin1_codepoints]. Qed.

Lemma accepts_latin1 (lib : fpdf_library) (txt : list N) :
  latin1 txt = true -> accepts lib txt = true.
Proof. now destruct lib. Qed.

Lemma draw_page_shape (lib : fpdf_library) (embedded : bool)
    (resume_text : string) (name : option string)
    (contact_info : option (gmap string pyval)) (template : string) :
  draw_page lib resume_text name contact_info template (start_page embedded)
  = if accepts lib (upper (default EmptyString name)) then
      match contact_result contact_info with
      | Ok present =>
          (Ok tt, drawn_page embedded resume_text name
                    (dict_truthy contact_info) present template)
      | Raise e => (Raise e, contact_refused_page embedded name template)
      end
    else (Raise FPDFUnicodeEncodingException,
          heading_refused_page embedded template).
Proof.
  unfold draw_page, contact_result, cell_ln, multi_cell. cbv zeta.
  rewrite (accepts_codepoints lib resume_text).
  destruct (accepts lib (upper _)); [| destruct embedded; reflexivity].
  destruct (dict_truthy contact_info); [| destruct embedded; reflexivity].
  destruct (str_items _) as [present | e]; [| destruct embedded; reflexivity].
  lazy beta iota zeta delta [mbind mret P_bind P_ret call evaluate refuse].
  rewrite accepts_codepoints. destruct embedded; reflexivity.
Qed.

Lemma contact_result_ok (contact_info : option (gmap string pyval)) :
  contact_ok contact_info = true ->
  contact_result contact_info
  = Ok (if dict_truthy contact_info then present_fields contact_info
        else []).
Proof.
  intros H. pose proof (contact_present contact_info H) as Hp.
  cbv zeta in Hp. unfold contact_result. cbv zeta. rewrite Hp.
  now destruct (dict_truthy contact_info).
Qed.

Lemma drawn_page_without_contact (embedded : bool) (resume_text : string)
    (name : option string) (present : list string) (template : string) :
  drawn_page embedded resume_text name false present template
  = drawn_page embedded resume_text name false [] template.
Proof. reflexivity. Qed.

Lemma draw_page_ok (lib : fpdf_library) (embedded : bool)
    (resume_text : string) (name : option string)
    (contact_info : option (gmap string pyval)) (template : string) :
  contact_ok contact_info = true ->
  latin1 (upper (default EmptyString name)) = true ->
  draw_page lib resume_text name contact_info template (start_page embedded)
  = (Ok tt, drawn_page embedded resume_text name (dict_truthy contact_info)
              (present_fields contact_info) template).
Proof.
  intros H Hn. rewrite draw_page_shape, (accepts_latin1 _ _ Hn).
  rewrite (contact_result_ok _ H).
  now destruct (dict_truthy contact_info).
Qed.

(** ** Serializing *)

Lemma encode_latin1_bytes (b : list Byte.byte) :
  encode_latin1_ignore (map Byte.to_N b) = b.
Proof.
  unfold encode_latin1_ignore. induction b as [| x b IH]; [reflexivity |].
  cbn [map omap list_omap]. now rewrite Byte.of_to_N, IH.
Qed.


Lemma serialize_cases (env : Env) (p : FPDF) :
  serialize env p
  = match library env with
    | FPDF2 => Ok (document env p)
    | PyFPDF =>
        if page_latin1 p then Ok (document env p)
        else Raise UnicodeEncodeError
    end.
Proof.
  unfold serialize, pdf_output. destruct (library env); [| reflexivity].
  destruct (page_latin1 p); [| reflexivity].
  cbn [mbind result_bind]. now rewrite encode_latin1_bytes.
Qed.

Lemma page_latin1_drawn (embedded : bool) (resume_text : string)
    (name : option string) (has_contact : bool) (present : list string)
    (template : string) :
  page_latin1 (drawn_page embedded resume_text name has_contact present
                 template)
  = latin1 (upper (default EmptyString name)).
Proof.
  unfold page_latin1, drawn_page, page_layout, contact_item, body_item.
  cbn [pdf_items].
  destruct embedded, has_contact;
    cbn [photo_items app forallb item_text photo_item heading_item];
    rewrite ?latin1_codepoints, ?andb_true_r; reflexivity.
Qed.

(** ** A whole run *)

Lemma after_photo_page (env : Env) (photo_bytes : option (list Byte.byte))
    (fs : gset string) :
  pdf (after_photo env photo_bytes fs) = start_page (embeds env photo_bytes).
Proof.
  unfold after_photo, embeds. destruct (bytes_truthy photo_bytes).
  - match goal with |- context [embed_photo env ?s] =>
      destruct (embed_photo_pdf env s) as [_ ->] end.
    now destruct (no_failure env).
  - reflexivity.
Qed.

Lemma rendered_unfold (env : Env) (resume_text : string)
    (name : option string) (contact_info : option (gmap string pyval))
    (template : string) (photo_bytes : option (list Byte.byte))
    (fs : gset string) :
  rendered env resume_text name contact_info template photo_bytes fs
  = match draw_page (library env) resume_text name contact_info template
            (pdf (after_photo env photo_bytes fs)) with
    | (Ok _, q) =>
        (serialize env q, with_pdf (after_photo env photo_bytes fs) q)
    | (Raise e, q) =>
        (Raise e, with_pdf (after_photo env photo_bytes fs) q)
    end.
Proof.
  unfold rendered, create_pdf_bytes, after_photo, start.
  lazy beta iota zeta delta [mbind mret M_bind M_ret on_pdf on_page read
    lift files printed pdf tmp_path].
  fold blank_page.
  destruct (bytes_truthy photo_bytes).
  - match goal with |- context [embed_photo env ?s] =>
      pose proof (embed_photo_pdf env s) as [Hr _];
      destruct (embed_photo env s) as [r s2] end.
    simpl in Hr. subst r. cbn [snd].
    destruct s2 as [fs2 pr2 p2 tp2].
    destruct (draw_page _ _ _ _ _ _) as [[[] | e] q]; [| reflexivity].
    unfold with_pdf. cbn [files printed pdf tmp_path].
    now destruct (serialize env q).
  - destruct (draw_page _ _ _ _ _ _) as [[[] | e] q]; [| reflexivity].
    unfold with_pdf. cbn [files printed pdf tmp_path].
    now destruct (serialize env q).
Qed.

(** The run in each of its cases: the heading refused, the contact fields
    refused, or the page drawn and serialized. *)
Lemma rendered_shape (env : Env) (resume_text : string)
    (name : option string) (contact_info : option (gmap string pyval))
    (template : string) (photo_bytes : option (list Byte.byte))
    (fs : gset string) :
  rendered env resume_text name contact_info template photo_bytes fs
  = let s := after_photo env photo_bytes fs in
    let embedded := embeds env photo_bytes in
    if accepts (library env) (upper (default EmptyString name)) then
      match contact_result contact_info with
      | Ok present =>
          let q := drawn_page embedded resume_text name
                     (dict_truthy contact_info) present template in
          (serialize env q, with_pdf s q)
      | Raise e =>
          (Raise e, with_pdf s (contact_refused_page embedded name template))
      end
    else (Raise FPDFUnicodeEncodingException,
          with_pdf s (heading_refused_page embedded template)).
Proof.
  rewrite rendered_unfold, after_photo_page, draw_page_shape. cbv zeta.
  destruct (accepts _ _); [| reflexivity].
  now destruct (contact_result contact_info).
Qed.

Lemma rendered_ok (env : Env) (resume_text : string)
    (name : option string) (contact_info : option (gmap string pyval))
    (template : string) (photo_bytes : option (list Byte.byte))
    (fs : gset string) :
  contact_ok contact_info = true ->
  latin1 (upper (default EmptyString name)) = true ->
  rendered env resume_text name contact_info template photo_bytes fs
  = let q := drawn_page (embeds env photo_bytes) resume_text name
               (dict_truthy contact_info) (present_fields contact_info)
               template in
    (Ok (document env q), with_pdf (after_photo env photo_bytes fs) q).
Proof.
  intros H Hn. rewrite rendered_unfold, after_photo_page.
  rewrite (draw_page_ok _ _ resume_text name contact_info template H Hn).
  cbv zeta. rewrite serialize_cases, page_latin1_drawn, Hn.
  now destruct (library env).
Qed.


(** ** C8: the contact line *)




(** ** C9: the photo does not move the text *)

(** C9. For inputs that differ only in the photo bytes being given or not,
    the page with the photo is the page without it plus, when the photo was
    embedded, the photo item in front: the name heading, the contact line
    and the body are the same items at the same coordinates, the cursor ends
    at the same place, and one run fails exactly when the other does. *)
Theorem photo_leaves_text_in_place (env : Env) (resume_text : string)
    (name : option string) (contact_info : option (gmap string pyval))
    (template : string) (bytes : list Byte.byte) (fs : gset string) :
  let with_photo :=
    rendered env resume_text name contact_info template (Some bytes) fs in
  let without :=
    rendered env resume_text name contact_info template None fs in
  page_items with_photo
  = photo_items (embeds env (Some bytes)) ++ page_items without
  /\ forallb (fun i => negb (is_photo i)) (page_items without) = true
  /\ pdf_x (pdf (snd with_photo)) = pdf_x (pdf (snd without))
  /\ pdf_y (pdf (snd with_photo)) = pdf_y (pdf (snd without))
  /\ pdf_page (pdf (snd with_photo)) = pdf_page (pdf (snd without))
  /\ is_ok (fst with_photo) = is_ok (fst without).
Proof.
  intros with_photo without. subst with_photo without.
  rewrite !rendered_shape. cbv zeta.
  change (embeds env None) with false.
  set (embedded := embeds env (Some bytes)).
  unfold page_items.
  destruct (accepts _ _);
    [| cbn [fst snd with_pdf pdf is_ok]; destruct embedded; repeat split].
  destruct (contact_result contact_info) as [present | e];
    cbn [fst snd with_pdf pdf is_ok].
  - rewrite !serialize_cases, !page_latin1_drawn.
    unfold drawn_page, page_layout. cbn [pdf_items pdf_x pdf_y pdf_page].
    repeat split.
    + destruct (dict_truthy contact_info); reflexivity.
    + destruct (library env); [| reflexivity].
      now destruct (latin1 (upper (default EmptyString name))).
  - destruct embedded; repeat split.
Qed.

(** ** C6: the temporary photo file *)

(** When the upload was written and flushed, the file is gone afterwards,
    whatever fails later: closing, decoding, saving or placing the image. *)
Lemma embed_photo_cleans (env : Env) (s : rstate) :
  create_error env = None -> write_error env = None ->
  flush_error env = None ->
  tmp_name env ∉ files (snd (embed_photo env s)).
Proof.
  destruct s as [fs pr p tp].
  destruct env as [tmp e1 e2 e3 [e4|] [e5|] [e6|] [e7|] out];
    cbn [create_error write_error flush_error]; intros H1 H2 H3; subst;
    run_photo; repeat case_bool_decide; run_photo; set_solver.
Qed.

(** When writing or flushing the upload fails, [tmp_path] is never bound and
    the file that was created stays. *)
Lemma embed_photo_leaks (env : Env) (s : rstate) :
  tmp_path s = None ->
  create_error env = None ->
  write_error env <> None \/ flush_error env <> None ->
  tmp_name env ∈ files (snd (embed_photo env s))
  /\ tmp_path (snd (embed_photo env s)) = None.
Proof.
  destruct s as [fs pr p tp].
  destruct env as [tmp e1 [e2|] [e3|] [e4|] [e5|] [e6|] [e7|] out];
    cbn [tmp_path create_error write_error flush_error];
    intros H1 H2 H3; subst; try (destruct H3; congruence);
    run_photo; (split; [set_solver | reflexivity]).
Qed.

(** C6 at a failing input: a photo is uploaded while the temporary
    directory is full.  The document is still produced, without the photo,
    and the failure is printed; but the temporary file is still there when
    [create_pdf_bytes] returns, because [tmp_path] was never bound. *)
Theorem write_failure_leaves_temporary_file :
  let run := rendered disk_full "Welder" (Some "Jane Doe") jane_contact
               "Modern Blue" one_byte ∅ in
  is_ok (fst run) = true
  /\ forallb (fun i => negb (is_photo i)) (page_items run) = true
  /\ printed (snd run) = [LibraryError "[Errno 28] No space left on device"]
  /\ tmp_path (snd run) = None
  /\ "/tmp/tmpk3x9q.png" ∈ files (snd run).
Proof.
  cbv zeta.
  rewrite (rendered_ok disk_full "Welder" (Some "Jane Doe") jane_contact
             "Modern Blue" one_byte ∅ eq_refl eq_refl).
  cbv zeta. unfold page_items. cbn [fst snd with_pdf pdf files printed tmp_path].
  split; [reflexivity |]. split; [reflexivity |].
  unfold after_photo. cbn [bytes_truthy one_byte].
  unfold disk_full. run_photo.
  split; [reflexivity |]. split; [reflexivity | set_solver].
Qed.

(** The sibling path: bytes that are not an image are caught the same way,
    and there the temporary file is removed. *)
Example corrupt_photo_cleaned :
  let run := rendered corrupt_photo "Welder" (Some "Jane Doe") jane_contact
               "Modern Blue" one_byte ∅ in
  is_ok (fst run) = true
  /\ forallb (fun i => negb (is_photo i)) (page_items run) = true
  /\ printed (snd run) = [LibraryError "cannot identify image file"]
  /\ "/tmp/tmpk3x9q.png" ∉ files (snd run).
Proof.
  cbv zeta.
  rewrite (rendered_ok corrupt_photo "Welder" (Some "Jane Doe") jane_contact
             "Modern Blue" one_byte ∅ eq_refl eq_refl).
  cbv zeta. unfold page_items. cbn [fst snd with_pdf pdf files printed].
  split; [reflexivity |]. split; [reflexivity |].
  unfold after_photo. cbn [bytes_truthy one_byte].
  unfold corrupt_photo. run_photo.
  case_bool_decide; run_photo; (split; [reflexivity | set_solver]).
Qed.

(** ** Rendering: colour, heading and serialization *)

Lemma primary_color_modern_blue :
  primary_color "Modern Blue" = (0, 102, 204)%Z.
Proof. reflexivity. Qed.

Lemma primary_color_other (template : string) :
  template <> "Modern Blue" -> primary_color template = (0, 0, 0)%Z.
Proof.
  intros H. unfold primary_color.
  destruct (String.eqb_spec template "Modern Blue"); [contradiction | reflexivity].
Qed.

Lemma heading_without_name (template : string) :
  heading_item None template = heading_item (Some EmptyString) template
  /\ heading_item None template
     = Cell 1 (mm 60) (mm 25) (mm 0) (mm 10) [] heading_font
         (primary_color template).
Proof. split; reflexivity. Qed.

(** With contact fields that are strings and a name whose capitals fit
    latin-1, [create_pdf_bytes] returns. *)
Lemma rendered_total (env : Env) (resume_text : string)
    (name : option string) (contact_info : option (gmap string pyval))
    (template : string) (photo_bytes : option (list Byte.byte))
    (fs : gset string) :
  contact_ok contact_info = true ->
  latin1 (upper (default EmptyString name)) = true ->
  is_ok (fst (rendered env resume_text name contact_info template
                photo_bytes fs)) = true.
Proof. intros H Hn. now rewrite (rendered_ok _ _ _ _ _ _ _ H Hn). Qed.

(** Encoding with ['ignore'] keeps the code points below 256, in order,
    and drops the others. *)
Lemma encode_latin1_ignore_keeps (s : list N) :
  map Byte.to_N (encode_latin1_ignore s)
  = filter (fun n => (n < 256)%N) s.
Proof.
  unfold encode_latin1_ignore.
  induction s as [| n s IH]; [reflexivity |].
  cbn [omap list_omap]. rewrite filter_cons.
  destruct (Byte.of_N n) as [b |] eqn:E.
  - cbn [map]. rewrite IH. apply Byte.to_of_N in E.
    assert (n < 256)%N by (pose proof (Byte.to_N_bounded b); lia).
    rewrite decide_True by assumption. now rewrite E.
  - apply Byte.of_N_None_iff in E.
    rewrite decide_False by lia. exact IH.
Qed.

Example encode_drops_bullet :
  encode_latin1_ignore [82; 8226; 233] = [Byte.x52; Byte.xe9].
Proof. reflexivity. Qed.

(** ** C7: a name the library cannot encode *)

(** C7 at a failing input: the one-letter name U+00FF, whose capital U+0178
    is outside latin-1.  [create_pdf_bytes] raises on it whatever the other
    arguments, the photo block and the library are: fpdf2 raises at the
    heading cell, the older fpdf in [output], so the encoding with
    ['ignore'] of line 250 is never reached. *)
Theorem name_outside_latin1_raises :
  (forall env resume_text contact_info template photo_bytes fs,
     is_ok (fst (rendered env resume_text (Some y_diaeresis) contact_info
                   template photo_bytes fs)) = false)
  /\ fst (rendered calm "Welder" (Some y_diaeresis) None "Modern Blue" None ∅)
     = Raise FPDFUnicodeEncodingException
  /\ fst (rendered calm_old "Welder" (Some y_diaeresis) None "Modern Blue"
            None ∅)
     = Raise UnicodeEncodeError.
Proof.
  split; [| split; reflexivity].
  intros env resume_text contact_info template photo_bytes fs.
  rewrite rendered_shape. cbv zeta.
  destruct (library env) eqn:El; [| reflexivity].
  change (accepts PyFPDF _) with true. cbv iota.
  destruct (contact_result contact_info) as [present | e]; [| reflexivity].
  cbn [fst]. now rewrite serialize_cases, El, page_latin1_drawn.
Qed.

(** * Further properties of the code *)

(** ** When the fallback raises *)

(** X1. [build_fallback_resume_text] returns a text exactly on the
    dictionaries for which [fallback_error] finds nothing, and otherwise
    raises the exception of the first statement that fails: a trade or an
    experience text that is not a string (also [None]) and a truthy skills
    text that is not a string, read only when the skills list is falsy, give
    [AttributeError]; truthy notes or education that are not strings give
    [TypeError]. *)
Theorem fallback_raises_exactly (data : gmap string pyval) :
  match build_fallback_resume_text data with
  | Ok _ => fallback_error data = None
  | Raise e => fallback_error data = Some e
  end.
Proof.
  unfold build_fallback_resume_text, fallback_locals, fallback_error.
  cbv zeta.
  generalize (get_or data "trade" (VStr EmptyString)).
  generalize (get_or data "years_experience" (VStr EmptyString)).
  generalize (get_or data "experience_text" (VStr EmptyString)).
  generalize (get data "special_notes").
  generalize (get data "skills_list").
  generalize (get data "skills_text").
  generalize (get data "certifications").
  generalize (get data "education").
  intros edu certs stext slist notes exp years trade.
  destruct trade as [| t |]; try reflexivity.
  destruct notes as [| [| ? ?] | [| ? ?]]; try reflexivity;
  destruct exp as [| e |]; try reflexivity;
  destruct slist as [| [| ? ?] | [| ? ?]]; try reflexivity;
  destruct stext as [| [| ? ?] | [| ? ?]]; try reflexivity;
  destruct edu as [| [| ? ?] | [| ? ?]]; reflexivity.
Qed.

(** ** Trimming, once more *)

Lemma lstrip_nonspace (c : ascii) (r : string) :
  isspace c = false -> lstrip (String c r) = String c r.
Proof. intros H. cbn [lstrip]. now rewrite H. Qed.

Lemma rstrip_nonspace (c : ascii) (r : string) :
  isspace c = false -> rstrip (String c r) = String c (rstrip r).
Proof. intros H. cbn [rstrip]. now rewrite H, andb_false_r. Qed.

Lemma rstrip_idem (s : string) : rstrip (rstrip s) = rstrip s.
Proof.
  induction s as [| c s IH]; [reflexivity |].
  cbn [rstrip].
  destruct (is_empty (rstrip s) && isspace c) eqn:E; [reflexivity |].
  cbn [rstrip]. now rewrite IH, E.
Qed.

Lemma rstrip_blank (s : string) : blank s = true -> rstrip s = EmptyString.
Proof.
  induction s as [| c s IH]; [reflexivity |].
  cbn [blank rstrip]. intros H. apply andb_true_iff in H as [Hc Hs].
  now rewrite (IH Hs), Hc.
Qed.

Lemma strip_idem (s : string) : strip (strip s) = strip s.
Proof.
  unfold strip. destruct (blank s) eqn:Hb.
  - now rewrite (lstrip_blank s Hb).
  - destruct (lstrip_not_blank s Hb) as (c & r & -> & Hc).
    rewrite (rstrip_nonspace c r Hc), (lstrip_nonspace c _ Hc).
    now rewrite <- (rstrip_nonspace c r Hc), rstrip_idem.
Qed.

Lemma strip_trimmed (s : string) :
  is_empty (strip s) = false -> trimmed (strip s) = true.
Proof.
  intros H. unfold trimmed. rewrite H, strip_idem. cbn [negb andb].
  apply String.eqb_refl.
Qed.

Lemma stripped_nonempty_trimmed (ls : list string) :
  Forall (fun e => trimmed e = true) (stripped_nonempty ls).
Proof.
  unfold stripped_nonempty. induction ls as [| x ls IH]; [constructor |].
  rewrite filter_cons. case_decide as H; [| exact IH].
  cbn [map]. constructor; [| exact IH].
  apply strip_trimmed. now destruct (is_empty (strip x)).
Qed.

Lemma stripped_nonempty_length (ls : list string) :
  (length (stripped_nonempty ls) <= length ls)%nat.
Proof.
  unfold stripped_nonempty. rewrite length_map. apply length_filter.
Qed.

Lemma rstrip_app (a b : string) :
  is_empty (rstrip b) = false -> rstrip (a +:+ b) = a +:+ rstrip b.
Proof.
  intros H. induction a as [| c a IH]; [reflexivity |].
  cbn [String.append rstrip]. rewrite IH.
  assert (E : is_empty (a +:+ rstrip b) = false).
  { destruct a; [exact H | reflexivity]. }
  now rewrite E.
Qed.

Lemma generic_experience_trimmed (t : string) :
  Forall (fun e => trimmed e = true) (generic_experience t).
Proof.
  unfold generic_experience. repeat constructor.
  unfold trimmed, strip.
  set (rest := " tasks including installation, maintenance, and repairs.").
  assert (Hl : lstrip ("Performed " +:+ t +:+ rest)
               = ("Performed " +:+ t) +:+ rest)
    by (rewrite app_assoc_str; reflexivity).
  rewrite Hl, rstrip_app by reflexivity.
  change (rstrip rest) with rest. rewrite <- app_assoc_str.
  rewrite String.eqb_refl. reflexivity.
Qed.

(** ** The experience bullets *)

(** X2. On every well-formed profile each experience bullet of the fallback
    is a non-empty string without white space at either end, and there are
    at most as many bullets as the experience text has lines, or three. *)
Theorem experience_bullets_trimmed (data : gmap string pyval) :
  well_formed data = true ->
  exists l,
    fallback_locals data = Ok l
    /\ Forall (fun e => trimmed e = true) (exp_lines l)
    /\ (length (exp_lines l)
        <= Nat.max 3 (length (splitlines (str_field data "experience_text"))))%nat.
Proof.
  intros wf. eexists. split; [exact (fallback_locals_wf data wf) |].
  cbn [exp_lines]. unfold exp_lines_of.
  pose proof (stripped_nonempty_trimmed
                (splitlines (str_field data "experience_text"))) as Ht.
  pose proof (stripped_nonempty_length
                (splitlines (str_field data "experience_text"))) as Hn.
  destruct (stripped_nonempty _) as [| x ls]; cbn [if_empty].
  - split; [apply generic_experience_trimmed | cbn; lia].
  - split; [exact Ht | lia].
Qed.

Lemma experience_bullets_trimmed_jane :
  well_formed jane_experienced = true
  /\ exists l,
       fallback_locals jane_experienced = Ok l
       /\ Forall (fun e => trimmed e = true) (exp_lines l)
       /\ (length (exp_lines l) <= 3)%nat.
Proof.
  split; [reflexivity |].
  destruct (experience_bullets_trimmed jane_experienced eq_refl)
    as (l & Hl & Ht & Hn).
  exists l. split; [exact Hl |]. split; [exact Ht | exact Hn].
Defined.

(** ** Splitting and trimming commute *)

Lemma stripped_nonempty_map (ls : list string) :
  stripped_nonempty ls
  = filter (fun s => negb (is_empty s)) (map strip ls).
Proof.
  unfold stripped_nonempty. induction ls as [| x ls IH]; [reflexivity |].
  cbn [map]. rewrite !filter_cons.
  repeat case_decide; try contradiction; cbn [map]; now rewrite IH.
Qed.

Lemma blank_lstrip_app (ws x : string) :
  blank ws = true -> lstrip (ws +:+ x) = lstrip x.
Proof.
  induction ws as [| c ws IH]; [reflexivity |].
  cbn [blank String.append lstrip]. intros H.
  apply andb_true_iff in H as [Hc Hs]. rewrite Hc. auto.
Qed.

Lemma lstrip_app_not_blank (x y : string) :
  blank x = false -> lstrip (x +:+ y) = lstrip x +:+ y.
Proof.
  induction x as [| c x IH]; [discriminate |].
  cbn [blank String.append lstrip].
  destruct (isspace c); [exact IH | reflexivity].
Qed.

Lemma rstrip_app_blank (y ws : string) :
  blank ws = true -> rstrip (y +:+ ws) = rstrip y.
Proof.
  intros H. induction y as [| c y IH]; [exact (rstrip_blank ws H) |].
  cbn [String.append rstrip]. now rewrite IH.
Qed.

Lemma strip_blank_app (ws x : string) :
  blank ws = true -> strip (ws +:+ x) = strip x.
Proof. intros H. unfold strip. now rewrite blank_lstrip_app. Qed.

Lemma strip_app_blank (x ws : string) :
  blank ws = true -> strip (x +:+ ws) = strip x.
Proof.
  intros H. unfold strip. destruct (blank x) eqn:Hx.
  - rewrite (lstrip_blank x Hx), lstrip_blank; [reflexivity |].
    now rewrite blank_app, Hx, H.
  - rewrite (lstrip_app_not_blank x ws Hx). now apply rstrip_app_blank.
Qed.

Lemma lstrip_decompose (s : string) :
  exists ws, blank ws = true /\ s = ws +:+ lstrip s.
Proof.
  induction s as [| c s (ws & Hb & Hs)]; [now exists EmptyString |].
  cbn [lstrip]. destruct (isspace c) eqn:Hc.
  - exists (String c ws). cbn [blank String.append].
    rewrite Hc, Hb. split; [reflexivity | now rewrite <- Hs].
  - now exists EmptyString.
Qed.

Lemma rstrip_decompose (s : string) :
  exists ws, blank ws = true /\ s = rstrip s +:+ ws.
Proof.
  induction s as [| c s (ws & Hb & Hs)]; [now exists EmptyString |].
  cbn [rstrip]. destruct (is_empty (rstrip s) && isspace c) eqn:E.
  - apply andb_true_iff in E as [He Hc].
    exists (String c ws). cbn [blank String.append]. rewrite Hc, Hb.
    split; [reflexivity |]. f_equal.
    destruct (rstrip s); [exact Hs | discriminate].
  - exists ws. split; [exact Hb |]. cbn [String.append]. now rewrite <- Hs.
Qed.

Section Split.

(** The separator is not white space: the comma of line 322. *)
Variable sep : ascii.
Hypothesis sep_not_space : isspace sep = false.

Lemma split_from_blank_prefix (ws u field : string) :
  blank ws = true ->
  split_from sep field (ws +:+ u) = split_from sep (field +:+ ws) u.
Proof.
  revert field. induction ws as [| c ws IH]; intros field H.
  - now rewrite app_empty_r.
  - cbn [blank] in H. apply andb_true_iff in H as [Hc Hs].
    cbn [String.append split_from].
    destruct (Ascii.eqb_spec c sep) as [-> | _]; [congruence |].
    rewrite (IH _ Hs), app_assoc_str. reflexivity.
Qed.

Lemma split_from_field_prefix (ws field t : string) :
  blank ws = true ->
  map strip (split_from sep (ws +:+ field) t)
  = map strip (split_from sep field t).
Proof.
  intros H. revert field. induction t as [| c t IH]; intros field.
  - cbn [split_from map]. now rewrite strip_blank_app.
  - cbn [split_from]. destruct (Ascii.eqb c sep).
    + cbn [map]. now rewrite strip_blank_app.
    + rewrite app_assoc_str. apply IH.
Qed.

Lemma split_from_blank_suffix (v ws field : string) :
  blank ws = true ->
  map strip (split_from sep field (v +:+ ws))
  = map strip (split_from sep field v).
Proof.
  intros H. revert field. induction v as [| c v IH]; intros field.
  - cbn [String.append]. rewrite <- (app_empty_r ws) at 1.
    rewrite (split_from_blank_prefix ws EmptyString field H).
    cbn [split_from map]. now rewrite strip_app_blank.
  - cbn [String.append split_from]. destruct (Ascii.eqb c sep).
    + cbn [map]. now rewrite IH.
    + apply IH.
Qed.

(** Trimming the text first gives the same trimmed fields. *)
Lemma split_strip (t : string) :
  map strip (split sep (strip t)) = map strip (split sep t).
Proof.
  unfold split, strip.
  destruct (rstrip_decompose (lstrip t)) as (ws' & Hw' & Hr).
  destruct (lstrip_decompose t) as (ws & Hw & Hl).
  rewrite Hl at 2. rewrite (split_from_blank_prefix ws _ _ Hw).
  cbn [String.append].
  rewrite <- (app_empty_r ws), (split_from_field_prefix ws _ _ Hw).
  rewrite Hr at 2. now rewrite (split_from_blank_suffix _ ws' _ Hw').
Qed.

End Split.

Lemma stripped_nonempty_split_strip (t : string) :
  stripped_nonempty (split "," (strip t)) = stripped_nonempty (split "," t).
Proof.
  rewrite !stripped_nonempty_map. now rewrite (split_strip "," eq_refl).
Qed.

(** ** The data built on submit *)

Lemma form_data_fields (f : Form) :
  form_data f !! "trade" = Some (VStr (strip (form_trade f)))
  /\ form_data f !! "skills_text" = Some (VStr (strip (f_skills_text f)))
  /\ form_data f !! "skills_list"
     = Some (VList (stripped_nonempty (split "," (f_skills_text f))))
  /\ form_data f !! "certifications"
     = Some (VList (stripped_nonempty (splitlines (f_certifications f)))).
Proof. repeat split. Qed.

Lemma form_data_well_formed (f : Form) : well_formed (form_data f) = true.
Proof. reflexivity. Qed.

Lemma form_generate_ok (w : Remote) (f : Form) :
  is_ok (fst (generate_resume_text w (form_data f))) = true.
Proof.
  pose proof (build_fallback_wf _ (form_data_well_formed f)) as Hf.
  unfold generate_resume_text. cbv zeta. rewrite Hf.
  destruct (OPENAI_AVAILABLE w && env_truthy (OPENAI_API_KEY w));
    [| reflexivity].
  now destruct (remote_attempt w _).
Qed.

(** X3. Whatever is typed into the form, the dictionary built on submit is
    well-formed, no statement of the fallback can raise on it, and
    [generate_resume_text] returns a text on it whatever the remote service
    does. *)
Theorem submitted_profile_synthesizes (w : Remote) (f : Form) :
  well_formed (form_data f) = true
  /\ fallback_error (form_data f) = None
  /\ is_ok (build_fallback_resume_text (form_data f)) = true
  /\ is_ok (fst (generate_resume_text w (form_data f))) = true.
Proof.
  pose proof (build_fallback_wf _ (form_data_well_formed f)) as Hf.
  split; [reflexivity |].
  split.
  { unfold fallback_error.
    repeat match goal with
           | |- context [truthy ?v] => destruct (truthy v)
           end; reflexivity. }
  split; [now rewrite Hf | apply form_generate_ok].
Qed.

(** X4. In the dictionary built on submit the two descriptions of the skills
    agree: the [skills_list] entry, split from the text as typed, is what
    splitting the trimmed [skills_text] entry gives, so the fallback resolves
    the same skills from either. *)
Theorem submitted_skills_agree (f : Form) :
  list_field (form_data f) "skills_list"
  = stripped_nonempty (split "," (str_field (form_data f) "skills_text"))
  /\ resolved_skills (form_data f)
     = stripped_nonempty (split "," (f_skills_text f)).
Proof.
  assert (H : list_field (form_data f) "skills_list"
              = stripped_nonempty (split "," (f_skills_text f)))
    by reflexivity.
  assert (Ht : str_field (form_data f) "skills_text"
               = strip (f_skills_text f)) by reflexivity.
  split.
  - now rewrite H, Ht, stripped_nonempty_split_strip.
  - unfold resolved_skills. rewrite H, Ht, stripped_nonempty_split_strip.
    now destruct (stripped_nonempty _).
Qed.

Lemma join_not_empty (sep x : string) (l : list string) :
  is_empty x = false -> is_empty (join sep (x :: l)) = false.
Proof. intros H. destruct x; [discriminate |]. now destruct l. Qed.

Lemma trimmed_not_empty (e : string) :
  trimmed e = true -> is_empty e = false.
Proof. unfold trimmed. now destruct (is_empty e). Qed.

(** X5. In the dictionary built on submit every skill and every
    certification is non-empty and free of white space at its ends; on it no
    skills bullet of the fallback is empty and the Certifications line is
    never the empty string. *)
Theorem submitted_lists_trimmed (f : Form) :
  Forall (fun e => trimmed e = true) (list_field (form_data f) "skills_list")
  /\ Forall (fun e => trimmed e = true)
       (resolved_certifications (form_data f))
  /\ exists l,
       fallback_locals (form_data f) = Ok l
       /\ Forall (fun e => is_empty e = false) (skills l)
       /\ is_empty (certs_text l) = false.
Proof.
  assert (Hs : list_field (form_data f) "skills_list"
               = stripped_nonempty (split "," (f_skills_text f)))
    by reflexivity.
  assert (Hc : resolved_certifications (form_data f)
               = stripped_nonempty (splitlines (f_certifications f)))
    by reflexivity.
  split; [rewrite Hs; apply stripped_nonempty_trimmed |].
  split; [rewrite Hc; apply stripped_nonempty_trimmed |].
  eexists. split; [exact (fallback_locals_wf _ (form_data_well_formed f)) |].
  cbn [skills certs_text]. split.
  - unfold skills_of.
    destruct (submitted_skills_agree f) as [_ ->].
    pose proof (stripped_nonempty_trimmed (split "," (f_skills_text f))) as H.
    destruct (stripped_nonempty (split "," (f_skills_text f))) as [| x l];
      cbn [if_empty].
    + unfold generic_skills. repeat constructor.
      now destruct (str_field _ _).
    + eapply Forall_impl; [exact H |]. apply trimmed_not_empty.
  - unfold certs_text_of. rewrite Hc.
    pose proof (stripped_nonempty_trimmed (splitlines (f_certifications f)))
      as H.
    destruct (stripped_nonempty (splitlines (f_certifications f)))
      as [| x l]; [reflexivity |].
    apply join_not_empty, trimmed_not_empty. now inversion H.
Qed.

(** ** The page and the download on submit *)





Lemma replace_char_clears (a b : ascii) (s : string) :
  a <> b -> contains a (replace_char a b s) = false.
Proof.
  intros H. induction s as [| c s IH]; [reflexivity |].
  cbn [replace_char contains]. rewrite IH, orb_false_r.
  destruct (Ascii.eqb_spec c a) as [-> | Hc];
    apply Ascii.eqb_neq; congruence.
Qed.

Lemma replace_char_length (a b : ascii) (s : string) :
  String.length (replace_char a b s) = String.length s.
Proof. induction s as [| c s IH]; cbn; congruence. Qed.

Lemma length_app_str (a b : string) :
  String.length (a +:+ b) = (String.length a + String.length b)%nat.
Proof. induction a as [| c a IH]; cbn; congruence. Qed.

(** X7. The name of the download never contains a space and always ends in
    ".pdf" after a non-empty stem: "resume.pdf" for an empty name, and
    otherwise the name with every space turned into an underscore, four
    characters longer than the name. *)
Theorem download_name_safe (f : Form) :
  contains " " (download_name f) = false
  /\ (exists stem,
        download_name f = stem +:+ ".pdf" /\ is_empty stem = false)
  /\ (is_empty (f_name f) = true -> download_name f = "resume.pdf")
  /\ (is_empty (f_name f) = false ->
      download_name f = replace_char " " "_" (f_name f) +:+ ".pdf"
      /\ String.length (download_name f)
         = (String.length (f_name f) + 4)%nat).
Proof.
  unfold download_name, str_or.
  destruct (f_name f) as [| c n] eqn:E.
  - cbn. repeat split; try discriminate. now exists "resume".
  - assert (Hn : is_empty (replace_char " " "_" (String c n)) = false)
      by reflexivity.
    rewrite Hn. split.
    { rewrite contains_app, replace_char_clears by discriminate.
      reflexivity. }
    split; [eexists; split; [reflexivity | exact Hn] |].
    split; [discriminate |]. intros _. split; [reflexivity |].
    rewrite length_app_str, replace_char_length. reflexivity.
Qed.

(** ** Session state *)

Lemma init_fields_lookup (fields : list string) (st : gmap string pyval)
    (k : string) :
  fold_left init_field fields st !! k
  = match st !! k with
    | Some v => Some v
    | None =>
        if bool_decide (k ∈ fields) then Some (VStr EmptyString) else None
    end.
Proof.
  revert st. induction fields as [| x fields IH]; intros st.
  - cbn [fold_left]. rewrite bool_decide_eq_false_2 by apply not_elem_of_nil.
    now destruct (st !! k).
  - cbn [fold_left]. rewrite IH. unfold init_field.
    destruct (st !! x) as [vx |] eqn:Ex.
    + destruct (st !! k) as [v |] eqn:Ek; [reflexivity |].
      assert (k <> x) by congruence.
      rewrite (bool_decide_ext (k ∈ x :: fields) (k ∈ fields));
        [reflexivity |].
      rewrite elem_of_cons. tauto.
    + destruct (decide (k = x)) as [-> | Hne].
      * rewrite lookup_insert_eq, Ex.
        rewrite bool_decide_eq_true_2 by apply list_elem_of_here.
        reflexivity.
      * rewrite lookup_insert_ne by congruence.
        destruct (st !! k) as [v |] eqn:Ek; [reflexivity |].
        rewrite (bool_decide_ext (k ∈ x :: fields) (k ∈ fields));
          [reflexivity |].
        rewrite elem_of_cons. tauto.
Qed.

(** X8. Initialising the session state keeps every value already there,
    sets exactly the nine voice fields that are missing to the empty string,
    adds no other key, and doing it again changes nothing. *)
Theorem init_session_keeps_values (st : gmap string pyval) :
  (forall k,
     init_session st !! k
     = match st !! k with
       | Some v => Some v
       | None =>
           if bool_decide (k ∈ voice_fields)
           then Some (VStr EmptyString) else None
       end)
  /\ init_session (init_session st) = init_session st.
Proof.
  assert (H : forall s k,
            init_session s !! k
            = match s !! k with
              | Some v => Some v
              | None =>
                  if bool_decide (k ∈ voice_fields)
                  then Some (VStr EmptyString) else None
              end)
    by (intros s k; apply init_fields_lookup).
  split; [apply H |].
  apply map_eq. intros k. rewrite (H (init_session st) k), (H st k).
  destruct (st !! k); [reflexivity |].
  now destruct (bool_decide (k ∈ voice_fields)).
Qed.

(** ** Voice input *)

(** X9. [voice_input] returns, rather than raises, exactly when the
    microphone opens and the first failure of listening or recognizing, if
    any, is one of the three exceptions it names; on such a failure it
    returns the empty string; whenever it returns it has shown two messages,
    the first announcing that it listens; a recognized text is returned as
    it is. *)
Theorem voice_input_recovers (v : Voice) (prompt : string) :
  is_said (fst (voice_input v prompt))
  = match microphone_error v, first_failure v with
    | Some _, _ => false
    | None, None => true
    | None, Some e => match handled e with Some _ => true | None => false end
    end
  /\ (forall e n,
        microphone_error v = None -> first_failure v = Some e ->
        handled e = Some n ->
        voice_input v prompt = (Said EmptyString, [Listening prompt; n]))
  /\ (forall text,
        microphone_error v = None -> listen_error v = None ->
        recognize_google v = inr text ->
        voice_input v prompt
        = (Said text, [Listening prompt; Recognized prompt text]))
  /\ (is_said (fst (voice_input v prompt)) = true ->
      exists second, snd (voice_input v prompt) = [Listening prompt; second]).
Proof.
  unfold voice_input, listen_and_recognize, first_failure.
  destruct v as [m l r]. cbn [microphone_error listen_error recognize_google].
  split; [| split; [| split]].
  - destruct m as [m |]; [reflexivity |].
    destruct l as [l |]; [now destruct (handled l) |].
    destruct r as [r | text]; [now destruct (handled r) | reflexivity].
  - intros e n -> He Hn.
    destruct l as [l |].
    + injection He as ->. now rewrite Hn.
    + destruct r as [r | text]; [| discriminate].
      injection He as ->. now rewrite Hn.
  - now intros text -> -> ->.
  - destruct m as [m |]; [discriminate |].
    destruct l as [l |].
    + destruct (handled l) as [n |]; [| discriminate]. intros _. now exists n.
    + destruct r as [r | text].
      * destruct (handled r) as [n |]; [| discriminate].
        intros _. now exists n.
      * intros _. now eexists.
Qed.

(** X10. A voice button whose recognition fails with one of the three named
    exceptions overwrites its field with the empty string, whatever was
    captured before; the other fields are left alone and the script goes
    on. *)
Theorem speak_failure_erases (v : Voice) (field prompt : string)
    (st : gmap string pyval) (e : voice_exn) (n : notice) :
  microphone_error v = None -> first_failure v = Some e ->
  handled e = Some n ->
  speak v field prompt st
  = (None, <[ field := VStr EmptyString ]> st, [Listening prompt; n])
  /\ snd (fst (speak v field prompt st)) !! field = Some (VStr EmptyString)
  /\ (forall k, k <> field ->
        snd (fst (speak v field prompt st)) !! k = st !! k).
Proof.
  intros Hm Hf Hn. unfold speak.
  assert (H : voice_input v prompt
              = (Said EmptyString, [Listening prompt; n])).
  { unfold voice_input, listen_and_recognize. unfold first_failure in Hf.
    rewrite Hm. destruct (listen_error v) as [l |].
    - injection Hf as ->. now rewrite Hn.
    - destruct (recognize_google v) as [r | text]; [| discriminate].
      injection Hf as ->. now rewrite Hn. }
  rewrite H. cbn [fst snd]. split; [reflexivity |].
  split; [apply lookup_insert_eq |].
  intros k Hk. now apply lookup_insert_ne.
Qed.

Lemma speak_failure_erases_silence :
  fst (speak silence "name" "name" {[ "name" := VStr "Jane Doe" ]})
  = (None, {[ "name" := VStr EmptyString ]}).
Proof.
  destruct (speak_failure_erases silence "name" "name"
              {[ "name" := VStr "Jane Doe" ]} WaitTimeoutError TimedOut
              eq_refl eq_refl eq_refl) as [H _].
  rewrite H. cbn [fst]. f_equal.
Defined.

(** ** The remote path, when it works *)

(** X11. When the library and the key are there and the answer has the
    expected shape, [generate_resume_text] returns the content of the first
    choice trimmed, with no warning and without consulting the fallback: on
    any dictionary, also one the fallback would raise on, and also when the
    trimmed content is empty. *)
Theorem generate_remote_success (w : Remote) (data : gmap string pyval)
    (resp choices first message : json) (content : string) :
  OPENAI_AVAILABLE w = true -> env_truthy (OPENAI_API_KEY w) = true ->
  let r := chat_request (build_prompt_for_openai w data) in
  ChatCompletion_create w r = Returns resp ->
  getitem resp "choices" = Ok choices -> getitem0 choices = Ok first ->
  getitem first "message" = Ok message ->
  getitem message "content" = Ok (JStr content) ->
  generate_resume_text w data
  = (Ok (strip content),
     [SetApiKey (default EmptyString (OPENAI_API_KEY w)); RemoteCall r])
  /\ strip (strip content) = strip content.
Proof.
  intros Ha Hk r Hc H1 H2 H3 H4. split; [| apply strip_idem].
  unfold generate_resume_text. cbv zeta. fold r.
  rewrite Ha, Hk. cbn [andb]. unfold remote_attempt, response_content.
  rewrite Hc, H1. cbn [mbind result_bind]. rewrite H2. cbn [mbind result_bind].
  rewrite H3. cbn [mbind result_bind]. rewrite H4. reflexivity.
Qed.

Lemma generate_remote_success_answers :
  build_fallback_resume_text (<[ "trade" := VNone ]> jane)
  = Raise AttributeError
  /\ fst (generate_resume_text answers (<[ "trade" := VNone ]> jane))
     = Ok "PROFESSIONAL SUMMARY".
Proof.
  split; [reflexivity |].
  destruct (generate_remote_success answers (<[ "trade" := VNone ]> jane)
              _ _ _ _ _ eq_refl eq_refl eq_refl eq_refl eq_refl eq_refl
              eq_refl) as [H _].
  rewrite H. reflexivity.
Defined.

(** ** The renderer and the file system *)

Lemma embed_photo_frame (env : Env) (s : rstate) (p : string) :
  tmp_path s = None -> p <> tmp_name env ->
  (p ∈ files (snd (embed_photo env s)) <-> p ∈ files s).
Proof.
  destruct s as [fs pr pg tp].
  destruct env as [tmp [e1|] [e2|] [e3|] [e4|] [e5|] [e6|] [e7|] out];
    cbn [tmp_path tmp_name]; intros Ht Hp; subst;
    run_photo; repeat case_bool_decide; run_photo; set_solver.
Qed.

Lemma embed_photo_printed (env : Env) (s : rstate) :
  printed (snd (embed_photo env s))
  = printed s ++ match photo_failure env with Some e => [e] | None => [] end.
Proof.
  destruct s as [fs pr pg [tp|]];
  destruct env as [tmp [e1|] [e2|] [e3|] [e4|] [e5|] [e6|] [e7|] out];
    unfold photo_failure; run_photo; repeat case_bool_decide; run_photo;
    rewrite ?app_nil_r; reflexivity.
Qed.

Lemma photo_failure_none (env : Env) :
  no_failure env = match photo_failure env with Some _ => false | None => true end.
Proof.
  now destruct env as [tmp [e1|] [e2|] [e3|] [e4|] [e5|] [e6|] [e7|] out].
Qed.

Lemma rendered_state (env : Env) (resume_text : string)
    (name : option string) (contact_info : option (gmap string pyval))
    (template : string) (photo_bytes : option (list Byte.byte))
    (fs : gset string) :
  let run := rendered env resume_text name contact_info template
               photo_bytes fs in
  files (snd run) = files (after_photo env photo_bytes fs)
  /\ printed (snd run) = printed (after_photo env photo_bytes fs)
  /\ tmp_path (snd run) = tmp_path (after_photo env photo_bytes fs).
Proof.
  cbv zeta. rewrite rendered_unfold.
  now destruct (draw_page _ _ _ _ _ _) as [[[] | e] q].
Qed.

(** X12. Rendering creates and removes no file but its own temporary one:
    any other path exists afterwards exactly when it existed before,
    whatever step of the photo block fails. *)
Theorem render_touches_only_its_file (env : Env) (resume_text : string)
    (name : option string) (contact_info : option (gmap string pyval))
    (template : string) (photo_bytes : option (list Byte.byte))
    (fs : gset string) (p : string) :
  p <> tmp_name env ->
  (p ∈ files (snd (rendered env resume_text name contact_info template
                     photo_bytes fs))
   <-> p ∈ fs).
Proof.
  intros Hp.
  destruct (rendered_state env resume_text name contact_info template
              photo_bytes fs) as [-> _].
  unfold after_photo. destruct (bytes_truthy photo_bytes); [| reflexivity].
  now rewrite embed_photo_frame.
Qed.

Lemma render_touches_only_its_file_notes :
  "notes.txt" ∈ files (snd (rendered corrupt_photo "Welder" (Some "Jane Doe")
                              jane_contact "Modern Blue" one_byte
                              {[ "notes.txt" ]})).
Proof.
  apply (render_touches_only_its_file corrupt_photo "Welder"
           (Some "Jane Doe") jane_contact "Modern Blue" one_byte
           {[ "notes.txt" ]} "notes.txt").
  - discriminate.
  - set_solver.
Defined.

(** X13. Without photo bytes, and with empty photo bytes just the same, the
    renderer touches no file, prints nothing and never binds [tmp_path]. *)
Theorem render_without_photo (env : Env) (resume_text : string)
    (name : option string) (contact_info : option (gmap string pyval))
    (template : string) (fs : gset string) :
  let run := rendered env resume_text name contact_info template None fs in
  rendered env resume_text name contact_info template (Some []) fs = run
  /\ files (snd run) = fs
  /\ printed (snd run) = []
  /\ tmp_path (snd run) = None
  /\ existsb is_photo (page_items run) = false.
Proof.
  cbv zeta. split; [now rewrite !rendered_shape |].
  destruct (rendered_state env resume_text name contact_info template
              None fs) as (-> & -> & ->).
  repeat split.
  unfold page_items. rewrite rendered_shape. cbv zeta.
  change (embeds env None) with false.
  destruct (accepts _ _); [| reflexivity].
  destruct (contact_result contact_info) as [present | e];
    cbn [snd with_pdf pdf]; [| reflexivity].
  unfold drawn_page, page_layout. cbn [pdf_items].
  now destruct (dict_truthy contact_info).
Qed.

(** X14. When the upload was written and flushed to the temporary file, no
    file of that name is left when the renderer returns, whichever of
    closing, decoding, saving and placing the image fails. *)
Theorem photo_file_removed_after_write (env : Env) (resume_text : string)
    (name : option string) (contact_info : option (gmap string pyval))
    (template : string) (photo_bytes : option (list Byte.byte))
    (fs : gset string) :
  bytes_truthy photo_bytes = true ->
  create_error env = None -> write_error env = None ->
  flush_error env = None ->
  tmp_name env ∉ files (snd (rendered env resume_text name contact_info
                               template photo_bytes fs)).
Proof.
  intros Hb H1 H2 H3.
  destruct (rendered_state env resume_text name contact_info template
              photo_bytes fs) as [-> _].
  unfold after_photo. rewrite Hb. now apply embed_photo_cleans.
Qed.

Lemma photo_file_removed_after_write_corrupt :
  open_error corrupt_photo = Some (LibraryError "cannot identify image file")
  /\ "/tmp/tmpk3x9q.png"
     ∉ files (snd (rendered corrupt_photo "Welder" (Some "Jane Doe")
                     jane_contact "Modern Blue" one_byte ∅)).
Proof.
  split; [reflexivity |].
  exact (photo_file_removed_after_write corrupt_photo "Welder"
           (Some "Jane Doe") jane_contact "Modern Blue" one_byte ∅
           eq_refl eq_refl eq_refl eq_refl).
Defined.

(** X15. A photo block that fails prints exactly one message, for the
    exception it caught, and one that succeeds or is skipped prints none;
    the photo is on the page exactly when bytes were given and no step
    failed. *)
Theorem photo_failure_prints_once (env : Env) (resume_text : string)
    (name : option string) (contact_info : option (gmap string pyval))
    (template : string) (photo_bytes : option (list Byte.byte))
    (fs : gset string) :
  let run := rendered env resume_text name contact_info template
               photo_bytes fs in
  printed (snd run)
  = (if bytes_truthy photo_bytes
     then match photo_failure env with Some e => [e] | None => [] end
     else [])
  /\ existsb is_photo (page_items run)
     = bytes_truthy photo_bytes
       && match photo_failure env with Some _ => false | None => true end.
Proof.
  cbv zeta. split.
  - destruct (rendered_state env resume_text name contact_info template
                photo_bytes fs) as (_ & -> & _).
    unfold after_photo. destruct (bytes_truthy photo_bytes); [| reflexivity].
    now rewrite embed_photo_printed.
  - rewrite <- photo_failure_none. fold (embeds env photo_bytes).
    unfold page_items. rewrite rendered_shape. cbv zeta.
    destruct (accepts _ _);
      [| cbn [snd with_pdf pdf]; now destruct (embeds env photo_bytes)].
    destruct (contact_result contact_info) as [present | e];
      cbn [snd with_pdf pdf].
    + unfold drawn_page, page_layout. cbn [pdf_items].
      now destruct (embeds env photo_bytes), (dict_truthy contact_info).
    + now destruct (embeds env photo_bytes).
Qed.

(** ** The body block and the bytes *)





(** ** The prompt *)

Lemma all_plain_app (a b : string) :
  all_plain (a +:+ b) = all_plain a && all_plain b.
Proof.
  induction a as [| c a IH]; [reflexivity |].
  cbn [String.append all_plain]. now rewrite IH, andb_assoc.
Qed.

Lemma json_escape_char_plain (c : ascii) :
  all_plain (json_escape_char c) = true.
Proof. destruct c as [[] [] [] [] [] [] [] []]; reflexivity. Qed.

Lemma json_escape_plain (s : string) : all_plain (json_escape s) = true.
Proof.
  induction s as [| c s IH]; [reflexivity |].
  cbn [json_escape]. now rewrite all_plain_app, json_escape_char_plain, IH.
Qed.

Lemma json_string_plain (s : string) : all_plain (json_string s) = true.
Proof.
  unfold json_string. cbn [all_plain].
  now rewrite all_plain_app, json_escape_plain.
Qed.

Lemma all_plain_join (sep : string) (l : list string) :
  all_plain sep = true -> Forall (fun s => all_plain s = true) l ->
  all_plain (join sep l) = true.
Proof.
  intros Hs H. induction H as [| x l Hx Hl IH]; [reflexivity |].
  destruct l as [| y l]; [exact Hx |].
  change (join sep (x :: y :: l)) with (x +:+ sep +:+ join sep (y :: l)).
  now rewrite !all_plain_app, Hx, Hs, IH.
Qed.

Lemma json_value_plain (v : pyval) : all_plain (json_value v) = true.
Proof.
  destruct v as [| s | [| x l]]; try reflexivity.
  - apply json_string_plain.
  - unfold json_value. rewrite !all_plain_app.
    rewrite all_plain_join; [reflexivity | reflexivity |].
    apply Forall_forall. intros e He.
    apply list_elem_of_fmap in He as (s & -> & _).
    rewrite all_plain_app. now rewrite json_string_plain.
Qed.

Lemma dumps_indent2_plain (items : list (string * pyval)) :
  all_plain (dumps_indent2 items) = true.
Proof.
  destruct items as [| kv items]; [reflexivity |].
  unfold dumps_indent2. rewrite !all_plain_app.
  rewrite all_plain_join; [reflexivity | reflexivity |].
  apply Forall_forall. intros e He.
  apply list_elem_of_fmap in He as ([k v] & -> & _).
  unfold json_item. cbn [fst snd].
  now rewrite !all_plain_app, json_string_plain, json_value_plain.
Qed.

(** X18. With [json.dumps] writing the submitted dictionary in the order of
    its keys, the prompt holds nothing but printable ASCII characters and
    line feeds, whatever was typed into the form: the instruction, then the
    dictionary with every other character escaped. *)
Theorem prompt_is_plain_ascii (w : Remote) (f : Form) :
  json_dumps w (form_data f) = dumps_indent2 (form_items f) ->
  all_plain (build_prompt_for_openai w (form_data f)) = true
  /\ exists instruction,
       build_prompt_for_openai w (form_data f)
       = instruction +:+ dumps_indent2 (form_items f)
       /\ all_plain instruction = true.
Proof.
  intros H. unfold build_prompt_for_openai. rewrite H. split.
  - rewrite !all_plain_app, dumps_indent2_plain. reflexivity.
  - eexists. rewrite <- !app_assoc_str. split; reflexivity.
Qed.

Lemma prompt_is_plain_ascii_jane :
  json_dumps dumping (form_data jane_form)
  = dumps_indent2 (form_items jane_form)
  /\ all_plain (build_prompt_for_openai dumping (form_data jane_form)) = true.
Proof.
  split; [reflexivity |].
  exact (proj1 (prompt_is_plain_ascii dumping jane_form eq_refl)).
Defined.

(** ** What the fallback never reads *)

(** X19. With a skills list that is not empty the fallback never reads the
    skills text: putting any value there, also one that is no string, or
    removing it leaves the result as it is. *)
Theorem skills_text_unread (data : gmap string pyval) (v : option pyval) :
  truthy (get data "skills_list") = true ->
  build_fallback_resume_text (<[ "skills_text" := default VNone v ]> data)
  = build_fallback_resume_text data
  /\ build_fallback_resume_text (delete "skills_text" data)
     = build_fallback_resume_text data.
Proof.
  intros H.
  assert (Hd : forall d : gmap string pyval,
            (forall k, k <> "skills_text" -> d !! k = data !! k) ->
            build_fallback_resume_text d = build_fallback_resume_text data).
  { intros d Hk.
    assert (Hg : forall k, k <> "skills_text" -> get d k = get data k)
      by (intros k Hne; unfold get; now rewrite Hk).
    assert (Ho : forall k x, k <> "skills_text" ->
                 get_or d k x = get_or data k x)
      by (intros k x Hne; unfold get_or; now rewrite Hk).
    unfold build_fallback_resume_text, fallback_locals. cbv zeta.
    rewrite !Ho by discriminate.
    rewrite !(Hg "special_notes"), !(Hg "skills_list"),
      !(Hg "certifications"), !(Hg "education") by discriminate.
    rewrite H. reflexivity. }
  split; apply Hd; intros k Hk.
  - now apply lookup_insert_ne.
  - now apply lookup_delete_ne.
Qed.

Lemma skills_text_unread_jane :
  truthy (get (form_data jane_form) "skills_list") = true
  /\ build_fallback_resume_text
       (<[ "skills_text" := VNone ]> (form_data jane_form))
     = build_fallback_resume_text (form_data jane_form).
Proof.
  split; [reflexivity |].
  exact (proj1 (skills_text_unread (form_data jane_form) None eq_refl)).
Defined.
